(** * GTSRB traffic sign detector: the core module [traffic_sign_detector.py]

    A shallow embedding of [TrafficSignDetector] and the properties of its
    decision logic, batch loop, report summary, model loading and image
    preprocessing.

    Python dictionaries are association lists of values in insertion order;
    code that raises returns [Raise e]; the clocks and the files written are
    a world threaded through the calls.  PIL, TensorFlow Lite and the file
    system are parameters ([Sys.Env]); of NumPy, [np.max] and [np.argmax] are
    defined, and [np.argsort] is any function that returns a permutation of
    the indices sorting its argument (NaN last), since the default sort
    promises no order among equal scores.

    Floating-point numbers are IEEE 754 values in the representation of
    [SpecFloat]: binary64 for Python floats, binary32 for the samples of the
    image tensor.  A float32 score widens exactly to binary64, so a score
    vector is given by its binary64 values; [float(np.max(...))] (line 131)
    is then the identity, and the comparison of a score with the threshold
    at line 138 is taken, like those of lines 150 and 155, in binary64, which
    is how NumPy 1.x compares a float32 scalar with a Python float.  (NumPy 2
    compares the two in float32, after rounding the threshold to float32.) *)

From Stdlib Require Import ZArith List Bool Lia String Ascii.
From Stdlib Require Import Strings.Byte.
From Stdlib Require Import Permutation Sorted PeanoNat.
From Stdlib Require Import Floats.SpecFloat.
Import ListNotations.

Local Open Scope Z_scope.

(** ** Floating point *)

Module Float.

Definition float := spec_float.

Definition is_nan (x : float) : bool :=
  match x with S754_nan => true | _ => false end.

(** Python's and NumPy's [a < b], [a <= b], [a > b], [a >= b] on floats:
    every comparison with NaN is false. *)
Definition lt (a b : float) : bool := SFltb a b.
Definition le (a b : float) : bool := SFleb a b.
Definition gt (a b : float) : bool := SFltb b a.
Definition ge (a b : float) : bool := SFleb b a.

(** binary64 (Python float, np.float64) and binary32 (np.float32). *)
Definition prec64 : Z := 53.
Definition emax64 : Z := 1024.
Definition prec32 : Z := 24.
Definition emax32 : Z := 128.

(** [float(n)] for a Python int, and the float32 image of an integer. *)
Definition f64_of_Z (n : Z) : float := binary_normalize prec64 emax64 n 0 false.
Definition f32_of_Z (n : Z) : float := binary_normalize prec32 emax32 n 0 false.

Definition div64 : float -> float -> float := SFdiv prec64 emax64.
Definition mul64 : float -> float -> float := SFmul prec64 emax64.
Definition sub64 : float -> float -> float := SFsub prec64 emax64.
Definition add64 : float -> float -> float := SFadd prec64 emax64.
Definition div32 : float -> float -> float := SFdiv prec32 emax32.

(** A decimal literal [n/d] of the source ([0.3] is [dec64 3 10]): the
    binary64 value nearest to the quotient. *)
Definition dec64 (n d : Z) : float := div64 (f64_of_Z n) (f64_of_Z d).

(** The built-in [round(x, 2)] on a Python float: the exact value of [x] is
    rounded to two decimals, ties to even, and the decimal is converted back
    to the nearest binary64 value.  Zeros, infinities and NaN are returned
    unchanged. *)
Definition round_half_even (n d : Z) : Z :=
  let q := n / d in
  let r := n mod d in
  match Z.compare (2 * r) d with
  | Lt => q
  | Gt => q + 1
  | Eq => if Z.even q then q else q + 1
  end.

Definition round2 (x : float) : float :=
  match x with
  | S754_finite s m e =>
      if 0 <=? e then x
      else
        let k := round_half_even (Zpos m * 100) (2 ^ (- e)) in
        match k with
        | Zpos p => div64 (S754_finite s p 0) (S754_finite false 100 0)
        | _ => S754_zero s
        end
  | _ => x
  end.

End Float.

(** ** Python values, dictionaries and exceptions *)

Module Py.

Import Float.

(** The values a result dictionary and the report hold (what [json.dump]
    writes). *)
#[warnings="-register-all"]
Inductive value : Type :=
| VNone
| VBool (b : bool)
| VInt (z : Z)
| VFloat (f : float)
| VStr (s : string)
| VList (l : list value)
| VDict (d : list (string * value)).

(** A dictionary literal with distinct keys, in insertion order. *)
Definition dict := list (string * value).

Fixpoint lookup (k : string) (d : dict) : option value :=
  match d with
  | [] => None
  | (k', v) :: d' => if String.eqb k k' then Some v else lookup k d'
  end.

(** [d.get(k, default)], [k in d] and [list(d.keys())]. *)
Definition get (d : dict) (k : string) (default : value) : value :=
  match lookup k d with Some v => v | None => default end.

Definition contains (k : string) (d : dict) : bool :=
  match lookup k d with Some _ => true | None => false end.

Definition keys (d : dict) : list string := map fst d.

(** Truth value testing, as [if v] does it. *)
Definition truthy (v : value) : bool :=
  match v with
  | VNone => false
  | VBool b => b
  | VInt z => negb (z =? 0)
  | VFloat f => match f with S754_zero _ => false | _ => true end
  | VStr s => negb (String.eqb s EmptyString)
  | VList l => match l with [] => false | _ => true end
  | VDict d => match d with [] => false | _ => true end
  end.

(** An exception, an instance of [Exception] (what [except Exception]
    catches): its class and the message [str(e)] gives. *)
Record exn : Type := Exception { exn_class : string; str : string }.

(** The outcome of code that may raise. *)
Inductive res (A : Type) : Type :=
| Ok (a : A)
| Raise (e : exn).
Arguments Ok {A} a.
Arguments Raise {A} e.

Definition IndexError : exn :=
  Exception "IndexError" "list index out of range".
Definition ValueError_argmax : exn :=
  Exception "ValueError" "attempt to get argmax of an empty sequence".
Definition ValueError_max : exn :=
  Exception "ValueError"
    "zero-size array to reduction operation maximum which has no identity".
Definition IndexError_axis0 : exn :=
  Exception "IndexError" "index 0 is out of bounds for axis 0 with size 0".
Definition TypeError_mean : exn :=
  Exception "TypeError" "unsupported operand type(s) for mean".

End Py.

(** ** The NumPy routines the detector calls *)

Module NumPy.

Import Float Py.

(** The order NumPy sorts floats in: [a] before [b] when [a < b], or when
    [b] is NaN and [a] is not (NaN is placed at the end). *)
Definition sort_lt (a b : float) : bool :=
  lt a b || (is_nan b && negb (is_nan a)).

(** [a[i]] for an index inside the array. *)
Definition item (a : list float) (i : nat) : float := nth i a S754_nan.

(** [np.maximum]: the larger value, NaN when either is NaN. *)
Definition maximum (a b : float) : float :=
  if is_nan a || ge a b then a else b.

(** [np.max(a)]: the reduction of the array by [maximum]; an empty array
    raises. *)
Definition max (a : list float) : res float :=
  match a with
  | [] => Raise ValueError_max
  | x :: a' => Ok (fold_left maximum a' x)
  end.

(** [np.argmax(a)]: the scan keeps the running maximum [mp] and its index,
    replaces them at [i] when [not (a[i] <= mp)], and stops at the first
    NaN. *)
Fixpoint argmax_scan (a : list float) (i : nat) (mp : float) (best : nat) : nat :=
  match a with
  | [] => best
  | x :: a' =>
      if negb (le x mp)
      then if is_nan x then i else argmax_scan a' (S i) x i
      else argmax_scan a' (S i) mp best
  end.

Definition argmax (a : list float) : res nat :=
  match a with
  | [] => Raise ValueError_argmax
  | x :: a' => Ok (if is_nan x then 0%nat else argmax_scan a' 1%nat x 0%nat)
  end.

(** [np.argsort(a)] with the default [kind]: the indices of [a] in an order
    that sorts it.  The default sort is not stable, so the order of the
    indices of equal elements is left to the implementation: the detector
    is verified against every [argsort] that returns a permutation of the
    indices sorting [a]. *)
Definition sorts (a : list float) (p : list nat) : Prop :=
  Permutation p (seq 0 (List.length a)) /\
  Sorted (fun i j => sort_lt (item a j) (item a i) = false) p.

(** The library as the detector sees it.  [np.mean] of a Python list first
    converts the list to an array of float64 ([asarray], which raises on what
    is no number and leaves floats as they are) and then averages it
    ([mean]); [round2] is [round(x, 2)] on the [np.float64] it returns. *)
Record t : Type := Build {
  argsort : list float -> list nat;
  argsort_sorts : forall a, sorts a (argsort a);
  asarray : list value -> res (list float);
  asarray_floats : forall fs, asarray (map VFloat fs) = Ok fs;
  mean : list float -> float;
  round2 : float -> float
}.

(** [a[-3:]] and [a[::-1]]. *)
Definition last3 {A : Type} (l : list A) : list A :=
  skipn (List.length l - 3)%nat l.

Definition reversed {A : Type} (l : list A) : list A := rev l.

(** *** A reference implementation: stable insertion sort *)

Fixpoint insert (a : list float) (i : nat) (p : list nat) : list nat :=
  match p with
  | [] => [i]
  | j :: p' => if sort_lt (item a i) (item a j) then i :: p else j :: insert a i p'
  end.

Definition stable_argsort (a : list float) : list nat :=
  fold_left (fun p i => insert a i p) (seq 0 (List.length a)) [].

(** Numbers convert to float64; anything else raises. *)
Fixpoint numbers (l : list value) : res (list float) :=
  match l with
  | [] => Ok []
  | v :: l' =>
      match numbers l' with
      | Ok fs =>
          match v with
          | VFloat f => Ok (f :: fs)
          | VInt z => Ok (f64_of_Z z :: fs)
          | VBool b => Ok (f64_of_Z (if b then 1 else 0) :: fs)
          | _ => Raise TypeError_mean
          end
      | Raise e => Raise e
      end
  end.

(** The mean as the sum from left to right divided by the count. *)
Definition sequential_mean (l : list float) : float :=
  div64 (fold_left add64 l (S754_zero false)) (f64_of_Z (Z.of_nat (List.length l))).

End NumPy.

(** ** The world outside the detector *)

Module Sys.

Import Float Py.

(** An image in mode RGB: [size] is (width, height), [getpixel x y] the
    three bands of a pixel, each a byte. *)
Definition rgb : Type := byte * byte * byte.

Record Image : Type := MkImage {
  size : nat * nat;
  getpixel : nat -> nat -> rgb
}.

(** An array of rank 4 (batch, height, width, channel). *)
Definition Tensor : Type := list (list (list (list float))).

(** A TensorFlow Lite interpreter after [allocate_tensors()]: the shapes
    [get_input_details()[0]['shape']] and [get_output_details()[0]['shape']]
    declare, and [invoke input] for [set_tensor(..., input)], [invoke()] and
    the output tensor (batch, class) that [get_tensor] reads afterwards. *)
Record Interpreter : Type := MkInterpreter {
  input_shape : list Z;
  output_shape : list Z;
  invoke : Tensor -> res (list (list float))
}.

(** What the run depends on: NumPy, the image files as PIL decodes them
    ([Image.open(path).convert('RGB')], and the resampling [resize] applies),
    the model files as TensorFlow Lite loads them, the clocks at each reading,
    and [open(path, 'w')]. *)
Record Env : Type := MkEnv {
  np : NumPy.t;
  Image_open_convert_RGB : string -> res Image;
  Image_resample : Image -> nat * nat -> nat -> nat -> rgb;
  tf_lite_Interpreter : string -> res Interpreter;
  time_clock : nat -> float;
  datetime_clock : nat -> string;
  open_w : string -> res unit
}.

(** What a run changes: the number of clock readings so far and the files
    written, newest first. *)
Record World : Type := MkWorld {
  readings : nat;
  files : list (string * value)
}.

(** Code that reads and changes the world and may raise. *)
Definition M (A : Type) : Type := World -> res A * World.

Definition ret {A : Type} (a : A) : M A := fun w => (Ok a, w).

Definition bind {A B : Type} (c : M A) (k : A -> M B) : M B :=
  fun w =>
    match c w with
    | (Ok a, w') => k a w'
    | (Raise e, w') => (Raise e, w')
    end.

Definition lift {A : Type} (r : res A) : M A := fun w => (r, w).

(** [try: body except Exception as e: handler e]. *)
Definition try_except {A : Type} (body : M A) (handler : exn -> M A) : M A :=
  fun w =>
    match body w with
    | (Ok a, w') => (Ok a, w')
    | (Raise e, w') => handler e w'
    end.

Definition tick (w : World) : World :=
  MkWorld (S (readings w)) (files w).

(** [time.time()] and [datetime.now().isoformat()]. *)
Definition time_time (env : Env) : M float :=
  fun w => (Ok (time_clock env (readings w)), tick w).

Definition datetime_now_isoformat (env : Env) : M string :=
  fun w => (Ok (datetime_clock env (readings w)), tick w).

(** [with open(path, 'w') as f: json.dump(data, f)]. *)
Definition json_dump_to (env : Env) (path : string) (data : value) : M unit :=
  fun w =>
    match open_w env path with
    | Ok _ => (Ok tt, MkWorld (readings w) ((path, data) :: files w))
    | Raise e => (Raise e, w)
    end.

End Sys.

Declare Scope py_scope.
Notation "x <- c ;; k" := (Sys.bind c (fun x => k))
  (at level 61, c at next level, right associativity) : py_scope.

(** ** class TrafficSignDetector *)

Module TrafficSignDetector.

Import Float Py Sys.
Local Open Scope py_scope.
Local Open Scope string_scope.

(** GTSRB class labels (lines 28-39). *)
Definition LABELS : list string := [
  "Speed limit (20km/h)"; "Speed limit (30km/h)"; "Speed limit (50km/h)";
  "Speed limit (60km/h)"; "Speed limit (70km/h)"; "Speed limit (80km/h)";
  "End of speed limit (80km/h)"; "Speed limit (100km/h)";
  "Speed limit (120km/h)"; "No passing"; "No passing veh over 3.5 tons";
  "Right-of-way at intersection"; "Priority road"; "Yield"; "Stop";
  "No vehicles"; "Veh > 3.5 tons prohibited"; "No entry"; "General caution";
  "Dangerous curve left"; "Dangerous curve right"; "Double curve";
  "Bumpy road"; "Slippery road"; "Road narrows on the right"; "Road work";
  "Traffic signals"; "Pedestrians"; "Children crossing"; "Bicycles crossing";
  "Beware of ice/snow"; "Wild animals crossing"; "End speed + passing limits";
  "Turn right ahead"; "Turn left ahead"; "Ahead only"; "Go straight or right";
  "Go straight or left"; "Keep right"; "Keep left"; "Roundabout mandatory";
  "End of no passing"; "End no passing veh > 3.5 tons"
].

(** [LABELS[idx]]. *)
Definition LABELS_item (idx : nat) : res string :=
  match nth_error LABELS idx with
  | Some l => Ok l
  | None => Raise IndexError
  end.

(** The detector object: [self.model_path], [self.confidence_threshold] and
    [self.interpreter] with its input and output details. *)
Record t : Type := MkDetector {
  model_path : string;
  confidence_threshold : float;
  interpreter : Interpreter
}.

Section Detector.

Variable env : Env.

(** [_load_model] (lines 58-75), called by [__init__]: the interpreter is
    built and its tensors allocated; the shapes are logged; an exception is
    logged and raised again. *)
Definition _load_model (model_path : string) : res Interpreter :=
  match tf_lite_Interpreter env model_path with
  | Ok interp => Ok interp
  | Raise e => Raise e
  end.

(** [__init__] (lines 41-56). *)
Definition __init__ (model_path : string) (confidence_threshold : float) : res t :=
  match _load_model model_path with
  | Ok interp => Ok (MkDetector model_path confidence_threshold interp)
  | Raise e => Raise e
  end.

(** *** preprocess_image (lines 77-104) *)

(** [image.resize(target_size)]: an image of the size asked for. *)
Definition resize (image : Image) (target_size : nat * nat) : Image :=
  MkImage target_size (Image_resample env image target_size).

Definition float32_of_byte (b : byte) : float :=
  f32_of_Z (Z.of_N (Byte.to_N b)).

(** [np.array(image, dtype=np.float32)]: shape (height, width, 3). *)
Definition np_array_float32 (image : Image) : list (list (list float)) :=
  let '(width, height) := size image in
  map (fun y =>
         map (fun x =>
                let '(r, g, b) := getpixel image x y in
                [float32_of_byte r; float32_of_byte g; float32_of_byte b])
             (seq 0 width))
      (seq 0 height).

(** [image_array / 255.0] on a float32 array: float32 division of every
    sample. *)
Definition f32_255 : float := f32_of_Z 255.

Definition divide_255 (a : list (list (list float))) : list (list (list float)) :=
  map (map (map (fun v => div32 v f32_255))) a.

(** [np.expand_dims(image_array, axis=0)]. *)
Definition expand_dims0 (a : list (list (list float))) : Tensor := [a].

Definition preprocess_image (image_path : string) (target_size : nat * nat)
  : res Tensor :=
  match Image_open_convert_RGB env image_path with
  | Ok image =>
      let image := resize image target_size in
      let image_array := np_array_float32 image in
      let image_array := divide_255 image_array in
      let image_array := expand_dims0 image_array in
      Ok image_array
  | Raise e => Raise e
  end.

(** *** detect_sign (lines 106-174) *)

Definition detection (class_id : nat) (label : string) (confidence : float) : value :=
  VDict [("class_id", VInt (Z.of_nat class_id));
         ("label", VStr label);
         ("confidence", VFloat confidence)].

(** [output_data[0]]. *)
Definition row0 (output_data : list (list float)) : res (list float) :=
  match output_data with
  | scores :: _ => Ok scores
  | [] => Raise IndexError_axis0
  end.

(** The loop of lines 137-143 over [top_indices], appending to
    [top_predictions]. *)
Fixpoint top_predictions_loop (self : t) (scores : list float)
  (top_indices : list nat) (top_predictions : list value) : res (list value) :=
  match top_indices with
  | [] => Ok top_predictions
  | idx :: rest =>
      if gt (NumPy.item scores idx) (confidence_threshold self)
      then
        match LABELS_item idx with
        | Ok label =>
            top_predictions_loop self scores rest
              (top_predictions ++ [detection idx label (NumPy.item scores idx)])
        | Raise e => Raise e
        end
      else top_predictions_loop self scores rest top_predictions
  end.

(** The body of the [try] (lines 117-165). *)
Definition detect_sign_try (self : t) (image_path : string) : M dict :=
  input_data <- lift (preprocess_image image_path (224%nat, 224%nat)) ;;
  start_time <- time_time env ;;
  output_data <- lift (invoke (interpreter self) input_data) ;;
  end_time <- time_time env ;;
  let inference_time := sub64 end_time start_time in
  scores <- lift (row0 output_data) ;;
  predicted_class <- lift (NumPy.argmax scores) ;;
  confidence <- lift (NumPy.max scores) ;;
  let top_indices :=
    NumPy.reversed (NumPy.last3 (NumPy.argsort (np env) scores)) in
  top_predictions <- lift (top_predictions_loop self scores top_indices []) ;;
  timestamp <- datetime_now_isoformat env ;;
  primary_detection <-
    lift (if gt confidence (confidence_threshold self)
          then match LABELS_item predicted_class with
               | Ok label => Ok (detection predicted_class label confidence)
               | Raise e => Raise e
               end
          else Ok VNone) ;;
  ret [("image_path", VStr image_path);
       ("timestamp", VStr timestamp);
       ("inference_time_ms",
         VFloat (Float.round2 (mul64 inference_time (f64_of_Z 1000))));
       ("detected", VBool (gt confidence (confidence_threshold self)));
       ("primary_detection", primary_detection);
       ("top_predictions", VList top_predictions);
       ("model_info",
         VDict [("model_path", VStr (model_path self));
                ("confidence_threshold", VFloat (confidence_threshold self));
                ("input_shape", VList (map VInt (input_shape (interpreter self))));
                ("total_classes", VInt (Z.of_nat (List.length LABELS)))])].

(** The [except Exception as e] clause (lines 167-174). *)
Definition detect_sign_except (image_path : string) (e : exn) : M dict :=
  timestamp <- datetime_now_isoformat env ;;
  ret [("image_path", VStr image_path);
       ("timestamp", VStr timestamp);
       ("error", VStr (str e));
       ("detected", VBool false)].

Definition detect_sign (self : t) (image_path : string) : M dict :=
  try_except (detect_sign_try self image_path) (detect_sign_except image_path).

(** *** detect_batch (lines 176-196) *)

Fixpoint detect_batch_loop (self : t) (image_paths : list string)
  (results : list dict) : M (list dict) :=
  match image_paths with
  | [] => ret results
  | image_path :: rest =>
      result <- detect_sign self image_path ;;
      detect_batch_loop self rest (results ++ [result])
  end.

Definition detect_batch (self : t) (image_paths : list string) : M (list dict) :=
  detect_batch_loop self image_paths [].

(** *** save_results_to_json (lines 198-238) *)

Definition save_results_to_json (results : list dict) (output_path : string)
  : M unit :=
  let total_detections := Z.of_nat (List.length results) in
  let successful_detections :=
    Z.of_nat (List.length
                (filter (fun r => truthy (get r "detected" (VBool false)))
                        results)) in
  let failed_detections := (total_detections - successful_detections)%Z in
  let inference_times :=
    map (fun r => get r "inference_time_ms" (VInt 0))
        (filter (contains "inference_time_ms") results) in
  avg_inference_time <-
    lift (match inference_times with
          | [] => Ok (VInt 0)
          | _ :: _ =>
              match NumPy.asarray (np env) inference_times with
              | Ok a => Ok (VFloat (NumPy.mean (np env) a))
              | Raise e => Raise e
              end
          end) ;;
  let success_rate :=
    if (0 <? total_detections)%Z
    then VFloat (Float.round2
                   (mul64 (div64 (f64_of_Z successful_detections)
                                 (f64_of_Z total_detections))
                          (f64_of_Z 100)))
    else VInt 0 in
  let average_inference_time_ms :=
    match avg_inference_time with
    | VFloat m => VFloat (NumPy.round2 (np env) m)
    | _ => VInt 0
    end in
  detection_timestamp <- datetime_now_isoformat env ;;
  let output_data :=
    VDict [("detection_summary",
             VDict [("total_images", VInt total_detections);
                    ("successful_detections", VInt successful_detections);
                    ("failed_detections", VInt failed_detections);
                    ("success_rate", success_rate);
                    ("average_inference_time_ms", average_inference_time_ms);
                    ("detection_timestamp", VStr detection_timestamp)]);
           ("detections", VList (map VDict results))] in
  json_dump_to env output_path output_data.

End Detector.

End TrafficSignDetector.

(** ** The order on numbers (floats that are not NaN) *)

Module FloatFacts.

Import Float.


Lemma compare_cont_Eq (m1 m2 : positive) :
  Pos.compare_cont Eq m1 m2 = Pos.compare m1 m2.
Proof. reflexivity. Qed.

Ltac float_cases :=
  repeat match goal with
         | x : float |- _ => destruct x
         | x : spec_float |- _ => destruct x
         | b : bool |- _ => destruct b
         end;
  cbn in *; try discriminate; try reflexivity; try congruence.

Ltac cmp_cases :=
  rewrite ?compare_cont_Eq in *;
  repeat match goal with
         | H : context [Z.compare ?a ?b] |- _ =>
             destruct (Z.compare_spec a b); cbn in H
         | |- context [Z.compare ?a ?b] =>
             destruct (Z.compare_spec a b); cbn
         | H : context [Pos.compare ?a ?b] |- _ =>
             destruct (Pos.compare_spec a b); cbn in H
         | |- context [Pos.compare ?a ?b] =>
             destruct (Pos.compare_spec a b); cbn
         end;
  subst; try discriminate; try reflexivity; try congruence; try lia.

(** On numbers [<=] is total: [not (a <= b)] is [b < a]. *)
Lemma le_false_lt (a b : float) :
  is_nan a = false -> is_nan b = false -> le a b = false -> lt b a = true.
Proof.
  unfold le, lt, SFleb, SFltb. intros Ha Hb H.
  float_cases; cmp_cases.
Qed.

Lemma lt_false_le (a b : float) :
  is_nan a = false -> is_nan b = false -> lt a b = false -> le b a = true.
Proof.
  unfold le, lt, SFleb, SFltb. intros Ha Hb H.
  float_cases; cmp_cases.
Qed.

Lemma lt_le (a b : float) : lt a b = true -> le a b = true.
Proof.
  unfold le, lt, SFleb, SFltb.
  destruct (SFcompare a b) as [[]|]; congruence.
Qed.

Lemma lt_not_nan_l (a b : float) : lt a b = true -> is_nan a = false.
Proof. unfold lt, SFltb. destruct a; cbn; congruence. Qed.

Lemma lt_not_nan_r (a b : float) : lt a b = true -> is_nan b = false.
Proof. unfold lt, SFltb. destruct a, b; cbn; congruence. Qed.

Lemma le_not_nan_l (a b : float) : le a b = true -> is_nan a = false.
Proof. unfold le, SFleb. destruct a; cbn; congruence. Qed.

Lemma le_not_nan_r (a b : float) : le a b = true -> is_nan b = false.
Proof. unfold le, SFleb. destruct a, b; cbn; congruence. Qed.

Lemma le_refl (a : float) : is_nan a = false -> le a a = true.
Proof.
  unfold le, SFleb. intros Ha. float_cases.
  - rewrite compare_cont_Eq, Z.compare_refl, Pos.compare_refl. reflexivity.
  - rewrite compare_cont_Eq, Z.compare_refl, Pos.compare_refl. reflexivity.
Qed.

Lemma lt_le_trans (a b c : float) :
  lt a b = true -> le b c = true -> lt a c = true.
Proof.
  unfold le, lt, SFleb, SFltb. intros H1 H2.
  float_cases; cmp_cases.
Qed.

Lemma le_trans (a b c : float) :
  le a b = true -> le b c = true -> le a c = true.
Proof.
  unfold le, SFleb. intros H1 H2.
  float_cases; cmp_cases.
Qed.

Lemma lt_irrefl (a : float) : lt a a = false.
Proof.
  unfold lt, SFltb. float_cases.
  - rewrite compare_cont_Eq, Z.compare_refl, Pos.compare_refl. reflexivity.
  - rewrite compare_cont_Eq, Z.compare_refl, Pos.compare_refl. reflexivity.
Qed.

Lemma lt_le_false (a b : float) : lt a b = true -> le b a = false.
Proof.
  unfold le, lt, SFleb, SFltb. intros H.
  float_cases; cmp_cases.
Qed.

End FloatFacts.

(** ** Facts about the NumPy routines *)

Module NumPyFacts.

Import Float FloatFacts Py NumPy.

Lemma maximum_nan_l (b : float) : maximum S754_nan b = S754_nan.
Proof. reflexivity. Qed.

Lemma fold_maximum_nan (a : list float) : fold_left maximum a S754_nan = S754_nan.
Proof. induction a as [|x a IH]; cbn; auto. Qed.

Lemma is_nan_eq (x : float) : is_nan x = true -> x = S754_nan.
Proof. destruct x; cbn; congruence. Qed.

Lemma maximum_cases (a b : float) :
  is_nan a = false ->
  (le b a = true /\ maximum a b = a) \/ (le b a = false /\ maximum a b = b).
Proof.
  intros Ha. unfold maximum, ge. fold (le b a). rewrite Ha. cbn.
  destruct (le b a); auto.
Qed.

(** [np.max] is NaN exactly when the array holds a NaN. *)
Lemma fold_maximum_is_nan (a : list float) (x : float) :
  is_nan (fold_left maximum a x) = is_nan x || existsb is_nan a.
Proof.
  revert x. induction a as [|y a IH]; intros x; cbn.
  - now rewrite orb_false_r.
  - rewrite IH. destruct (is_nan x) eqn:Hx.
    + apply is_nan_eq in Hx. subst. reflexivity.
    + destruct (maximum_cases x y Hx) as [[Hle ->]|[Hle ->]].
      * rewrite Hx. now rewrite (le_not_nan_l _ _ Hle).
      * reflexivity.
Qed.

Lemma fold_maximum_in (a : list float) (x : float) :
  In (fold_left maximum a x) (x :: a).
Proof.
  revert x. induction a as [|y a IH]; intros x; cbn.
  - auto.
  - assert (H : maximum x y = x \/ maximum x y = y)
      by (unfold maximum; destruct (is_nan x || ge x y); auto).
    destruct (IH (maximum x y)) as [E|E].
    + rewrite <- E. destruct H as [-> | ->]; auto.
    + auto.
Qed.

Lemma fold_maximum_upper (a : list float) (x : float) :
  is_nan x = false -> existsb is_nan a = false ->
  le x (fold_left maximum a x) = true /\
  forall y, In y a -> le y (fold_left maximum a x) = true.
Proof.
  revert x. induction a as [|y a IH]; intros x Hx Ha; cbn in *.
  - split; [now apply le_refl | tauto].
  - apply orb_false_elim in Ha as [Hy Ha].
    destruct (maximum_cases x y Hx) as [[Hle E]|[Hle E]]; rewrite E.
    + destruct (IH x Hx Ha) as [H1 H2]. split; [exact H1|].
      intros z [<-|Hz]; [eapply le_trans; eauto | auto].
    + destruct (IH y Hy Ha) as [H1 H2]. split.
      * apply le_trans with y; [|exact H1].
        apply lt_le. apply le_false_lt; auto.
      * intros z [<-|Hz]; auto.
Qed.

(** The value [np.max] returns is an element of the array, and on an array
    of numbers it bounds every element. *)
Lemma max_in (a : list float) (m : float) : max a = Ok m -> In m a.
Proof.
  destruct a as [|x a]; cbn; [discriminate|].
  intros [= <-]. apply fold_maximum_in.
Qed.

Lemma max_is_nan (a : list float) (m : float) :
  max a = Ok m -> is_nan m = existsb is_nan a.
Proof.
  destruct a as [|x a]; cbn; [discriminate|].
  intros [= <-]. apply fold_maximum_is_nan.
Qed.

Lemma max_upper (a : list float) (m : float) :
  max a = Ok m -> existsb is_nan a = false ->
  forall y, In y a -> le y m = true.
Proof.
  destruct a as [|x a]; cbn; [discriminate|].
  intros [= <-] Hn. apply orb_false_elim in Hn as [Hx Ha].
  destruct (fold_maximum_upper a x Hx Ha) as [H1 H2].
  intros y [<-|Hy]; auto.
Qed.

(** The scan of [np.argmax] ends on an index that holds the reduction by
    [maximum]. *)
Lemma argmax_scan_spec (a pre : list float) (mp : float) (best : nat) :
  is_nan mp = false ->
  nth best pre S754_nan = mp ->
  (best < List.length pre)%nat ->
  let k := argmax_scan a (List.length pre) mp best in
  (k < List.length (pre ++ a))%nat /\
  nth k (pre ++ a) S754_nan = fold_left maximum a mp.
Proof.
  revert pre mp best. induction a as [|x a IH]; intros pre mp best Hmp Hb Hlt; cbn.
  - rewrite app_nil_r. split; [exact Hlt | exact Hb].
  - assert (Hlen : List.length (pre ++ [x]) = S (List.length pre))
      by (rewrite length_app; cbn; lia).
    assert (Happ : pre ++ x :: a = (pre ++ [x]) ++ a)
      by (rewrite <- app_assoc; reflexivity).
    destruct (maximum_cases mp x Hmp) as [[Hle E]|[Hle E]]; rewrite E, Hle; cbn.
    + rewrite Happ, <- Hlen. apply IH; auto.
      * rewrite app_nth1; auto.
      * rewrite Hlen. lia.
    + destruct (is_nan x) eqn:Hx.
      * apply is_nan_eq in Hx. subst x. rewrite fold_maximum_nan.
        split.
        -- rewrite length_app. cbn. lia.
        -- rewrite app_nth2 by lia. now rewrite Nat.sub_diag.
      * rewrite Happ, <- Hlen. apply IH; auto.
        -- rewrite app_nth2 by lia. now rewrite Nat.sub_diag.
        -- rewrite Hlen. lia.
Qed.

(** [a[np.argmax(a)] == np.max(a)], whatever the array holds. *)
Lemma argmax_max (a : list float) (i : nat) (m : float) :
  argmax a = Ok i -> max a = Ok m ->
  (i < List.length a)%nat /\ item a i = m.
Proof.
  destruct a as [|x a]; cbn; [discriminate|].
  intros [= <-] [= <-]. unfold item.
  destruct (is_nan x) eqn:Hx.
  - apply is_nan_eq in Hx. subst x. rewrite fold_maximum_nan.
    split; [lia | reflexivity].
  - apply (argmax_scan_spec a [x] x 0%nat); cbn; auto.
Qed.

Lemma argmax_ok (a : list float) :
  a <> [] -> exists i m, argmax a = Ok i /\ max a = Ok m.
Proof. destruct a as [|x a]; [congruence|]. cbn. eauto. Qed.

(** *** Sorting *)

(** [i] may stand before [j] in an order sorting [a]. *)
Definition before (a : list float) (i j : nat) : Prop :=
  sort_lt (item a j) (item a i) = false.

Lemma sort_lt_false_trans (x y z : float) :
  sort_lt y x = false -> sort_lt z y = false -> sort_lt z x = false.
Proof.
  unfold sort_lt, lt, SFltb. intros H1 H2.
  float_cases; cmp_cases.
Qed.

Lemma before_trans (a : list float) (i j k : nat) :
  before a i j -> before a j k -> before a i k.
Proof. unfold before. intros H1 H2. eapply sort_lt_false_trans; eauto. Qed.

Lemma sort_lt_total (x y : float) : sort_lt x y = true -> sort_lt y x = false.
Proof.
  unfold sort_lt, lt, SFltb. intros H.
  float_cases; cmp_cases.
Qed.

(** On numbers the sorting order is [<]. *)
Lemma sort_lt_numbers (x y : float) :
  is_nan x = false -> is_nan y = false -> sort_lt x y = lt x y.
Proof.
  unfold sort_lt. intros Hx Hy. rewrite Hx, Hy. cbn. apply orb_false_r.
Qed.

Lemma before_le (a : list float) (i j : nat) :
  is_nan (item a i) = false -> is_nan (item a j) = false ->
  before a i j -> le (item a i) (item a j) = true.
Proof.
  unfold before. intros Hi Hj H. rewrite sort_lt_numbers in H by auto.
  now apply lt_false_le.
Qed.

Lemma sorts_strongly (a : list float) (p : list nat) :
  sorts a p -> StronglySorted (before a) p.
Proof.
  intros [_ H]. apply Sorted_StronglySorted; [|exact H].
  intros i j k. apply before_trans.
Qed.

Lemma sorts_length (a : list float) (p : list nat) :
  sorts a p -> List.length p = List.length a.
Proof.
  intros [H _]. apply Permutation_length in H. now rewrite length_seq in H.
Qed.

Lemma sorts_in (a : list float) (p : list nat) (i : nat) :
  sorts a p -> (In i p <-> (i < List.length a)%nat).
Proof.
  intros [H _]. split; intros Hi.
  - apply (Permutation_in _ H) in Hi. apply in_seq in Hi. lia.
  - apply (Permutation_in _ (Permutation_sym H)). apply in_seq. lia.
Qed.

Lemma sorts_NoDup (a : list float) (p : list nat) : sorts a p -> NoDup p.
Proof.
  intros [H _]. apply (Permutation_NoDup (Permutation_sym H)). apply seq_NoDup.
Qed.

(** The insertion sort of the reference implementation sorts. *)
Lemma insert_perm (a : list float) (i : nat) (p : list nat) :
  Permutation (insert a i p) (i :: p).
Proof.
  induction p as [|j p IH]; cbn; [reflexivity|].
  destruct (sort_lt (item a i) (item a j)); [reflexivity|].
  rewrite IH. apply perm_swap.
Qed.

Lemma insert_HdRel (a : list float) (i j : nat) (p : list nat) :
  before a j i -> HdRel (before a) j p -> HdRel (before a) j (insert a i p).
Proof.
  intros Hji H. destruct p as [|k p]; cbn.
  - now constructor.
  - destruct (sort_lt (item a i) (item a k)); constructor; auto.
    now inversion H.
Qed.

Lemma insert_sorted (a : list float) (i : nat) (p : list nat) :
  Sorted (before a) p -> Sorted (before a) (insert a i p).
Proof.
  induction 1 as [|j p Hs IH Hd]; cbn.
  - repeat constructor.
  - destruct (sort_lt (item a i) (item a j)) eqn:E.
    + constructor; [now constructor|]. constructor.
      unfold before. now apply sort_lt_total.
    + constructor; [exact IH|]. apply insert_HdRel; auto.
Qed.

Lemma fold_insert_sorts (a : list float) (l p : list nat) :
  Sorted (before a) p ->
  Sorted (before a) (fold_left (fun p i => insert a i p) l p) /\
  Permutation (fold_left (fun p i => insert a i p) l p) (p ++ l).
Proof.
  revert p. induction l as [|i l IH]; intros p Hp; cbn.
  - rewrite app_nil_r. split; [exact Hp | reflexivity].
  - destruct (IH (insert a i p) (insert_sorted a i p Hp)) as [H1 H2].
    split; [exact H1|]. rewrite H2, insert_perm.
    cbn. apply Permutation_middle.
Qed.

Lemma stable_argsort_sorts (a : list float) : sorts a (stable_argsort a).
Proof.
  unfold stable_argsort, sorts.
  destruct (fold_insert_sorts a (seq 0 (List.length a)) []) as [H1 H2];
    [constructor|].
  split; [exact H2 | exact H1].
Qed.

Lemma numbers_floats (fs : list float) : numbers (map VFloat fs) = Ok fs.
Proof. induction fs as [|f fs IH]; cbn; [reflexivity|]. now rewrite IH. Qed.

(** NumPy with a stable sort and the sequential mean; its [round2] is the
    rounding of the built-in [round]. *)
Definition reference : NumPy.t :=
  NumPy.Build stable_argsort stable_argsort_sorts
              numbers numbers_floats sequential_mean Float.round2.

End NumPyFacts.

(** ** The decision of detect_sign *)

Module Decision.

Import Float FloatFacts Py Sys NumPy NumPyFacts TrafficSignDetector.
Local Open Scope string_scope.
Local Open Scope list_scope.
Local Open Scope nat_scope.

(** *** Lists *)

Lemma last3_length {A : Type} (l : list A) : List.length (last3 l) <= 3.
Proof. unfold last3. rewrite length_skipn. lia. Qed.

Lemma last3_incl {A : Type} (l : list A) (x : A) : In x (last3 l) -> In x l.
Proof.
  unfold last3. intros H. rewrite <- (firstn_skipn (List.length l - 3) l).
  apply in_or_app. now right.
Qed.

Lemma last3_last {A : Type} (l : list A) (d : A) :
  l <> [] -> In (last l d) (last3 l).
Proof.
  intros Hl. unfold last3.
  destruct (exists_last Hl) as [l' [x ->]].
  rewrite last_last, length_app. cbn.
  rewrite skipn_app. apply in_or_app. right.
  replace (List.length l' + 1 - 3 - List.length l') with 0 by lia.
  cbn. auto.
Qed.

Lemma skipn_NoDup {A : Type} (n : nat) (l : list A) : NoDup l -> NoDup (skipn n l).
Proof.
  revert l. induction n as [|n IH]; intros l H; [exact H|].
  destruct l as [|x l]; cbn; [constructor|].
  apply IH. now inversion H.
Qed.

Lemma skipn_StronglySorted {A : Type} (R : A -> A -> Prop) (n : nat) (l : list A) :
  StronglySorted R l -> StronglySorted R (skipn n l).
Proof.
  revert l. induction n as [|n IH]; intros l H; [exact H|].
  destruct l as [|x l]; cbn; [constructor|].
  apply IH. now inversion H.
Qed.

Lemma app_StronglySorted {A : Type} (R : A -> A -> Prop) (l1 l2 : list A) :
  StronglySorted R l1 -> StronglySorted R l2 ->
  (forall x y, In x l1 -> In y l2 -> R x y) ->
  StronglySorted R (l1 ++ l2).
Proof.
  induction 1 as [|x l1 Hs IH Hx]; intros H2 H12; cbn; [exact H2|].
  constructor.
  - apply IH; auto. intros; apply H12; cbn; auto.
  - apply Forall_app. split; [exact Hx|].
    apply Forall_forall. intros y Hy. apply H12; cbn; auto.
Qed.

Lemma rev_StronglySorted {A : Type} (R : A -> A -> Prop) (l : list A) :
  StronglySorted R l -> StronglySorted (fun x y => R y x) (rev l).
Proof.
  induction 1 as [|x l Hs IH Hx]; cbn; [constructor|].
  apply app_StronglySorted; [exact IH | repeat constructor |].
  intros y z Hy [<-|[]]. apply in_rev in Hy.
  rewrite Forall_forall in Hx. auto.
Qed.

Lemma filter_StronglySorted {A : Type} (R : A -> A -> Prop) (f : A -> bool)
  (l : list A) :
  StronglySorted R l -> StronglySorted R (filter f l).
Proof.
  induction 1 as [|x l Hs IH Hx]; cbn; [constructor|].
  destruct (f x); [|exact IH].
  constructor; [exact IH|].
  rewrite Forall_forall in *. intros y Hy. apply filter_In in Hy. apply Hx, Hy.
Qed.

(** *** The indices and the entries of top_predictions *)

Section Decide.

Variable env : Env.
Variable self : TrafficSignDetector.t.

(** [np.argsort(scores)[-3:][::-1]] (line 134). *)
Definition top_indices (scores : list float) : list nat :=
  reversed (last3 (argsort (np env) scores)).

(** The indices of line 134 that pass the test of line 138. *)
Definition listed (scores : list float) : list nat :=
  filter (fun idx => gt (item scores idx) (confidence_threshold self))
         (top_indices scores).

(** The entry appended at lines 139-143. *)
Definition entry (scores : list float) (idx : nat) : value :=
  detection idx (nth idx LABELS "") (item scores idx).

Lemma LABELS_length : List.length LABELS = 43.
Proof. reflexivity. Qed.

Lemma LABELS_item_ok (idx : nat) :
  idx < 43 -> LABELS_item idx = Ok (nth idx LABELS "").
Proof.
  intros H. unfold LABELS_item.
  rewrite (nth_error_nth' LABELS "") by (rewrite LABELS_length; exact H).
  reflexivity.
Qed.

Lemma top_predictions_loop_ok (scores : list float) (idxs : list nat)
  (acc : list value) :
  Forall (fun idx => idx < 43) idxs ->
  top_predictions_loop self scores idxs acc =
  Ok (acc ++ map (entry scores)
                 (filter (fun idx => gt (item scores idx) (confidence_threshold self))
                         idxs))%list.
Proof.
  intros H. revert acc. induction H as [|idx idxs Hidx _ IH]; intros acc; cbn.
  - now rewrite app_nil_r.
  - destruct (gt (item scores idx) (confidence_threshold self)); [|apply IH].
    rewrite (LABELS_item_ok idx Hidx), IH. cbn.
    now rewrite <- app_assoc.
Qed.

Lemma top_indices_in (scores : list float) (idx : nat) :
  In idx (top_indices scores) -> idx < List.length scores.
Proof.
  unfold top_indices, reversed. intros H. apply in_rev, last3_incl in H.
  now apply (sorts_in scores _ idx (argsort_sorts (np env) scores)).
Qed.

Lemma top_indices_length (scores : list float) :
  List.length (top_indices scores) <= 3.
Proof. unfold top_indices, reversed. rewrite length_rev. apply last3_length. Qed.

Lemma top_indices_NoDup (scores : list float) : NoDup (top_indices scores).
Proof.
  unfold top_indices, reversed, last3. apply NoDup_rev, skipn_NoDup.
  apply (sorts_NoDup scores), argsort_sorts.
Qed.

Lemma top_indices_sorted (scores : list float) :
  StronglySorted (fun i j => before scores j i) (top_indices scores).
Proof.
  unfold top_indices, reversed, last3.
  apply rev_StronglySorted, skipn_StronglySorted, sorts_strongly, argsort_sorts.
Qed.

(** The index that sorts last is among them, and no score sorts after
    its score. *)
Lemma top_indices_greatest (scores : list float) :
  scores <> [] ->
  exists g, In g (top_indices scores) /\
            forall j, j < List.length scores -> before scores j g.
Proof.
  intros Hs.
  pose proof (argsort_sorts (np env) scores) as Hp.
  assert (Hne : argsort (np env) scores <> []).
  { intros E. apply sorts_length in Hp. rewrite E in Hp.
    destruct scores; [congruence | discriminate]. }
  destruct (exists_last Hne) as [p' [g Eg]].
  exists g. split.
  - unfold top_indices, reversed. apply -> in_rev.
    replace g with (last (argsort (np env) scores) 0)
      by (rewrite Eg; apply last_last).
    now apply last3_last.
  - intros j Hj. apply (sorts_in scores _ j Hp) in Hj.
    apply sorts_strongly in Hp. rewrite Eg in Hp, Hj.
    apply in_app_or in Hj as [Hj|[Hj|[]]].
    + clear Eg Hne. induction p' as [|x p' IH]; [destruct Hj|].
      cbn in Hp. inversion Hp as [|? ? Hs' Hx]; subst.
      destruct Hj as [Hj|Hj]; [subst x|auto].
      rewrite Forall_forall in Hx. apply Hx. apply in_or_app. cbn. auto.
    + subst j. unfold before.
      destruct (sort_lt (item scores g) (item scores g)) eqn:E; [|reflexivity].
      now rewrite (sort_lt_total _ _ E) in E.
Qed.

(** *** The record of a successful run *)

(** The dictionary of lines 146-163, for the scores of the image, their
    argmax [i] and maximum [m], read at the clock readings of [w]. *)
Definition success_record (image_path : string) (w : World)
  (scores : list float) (i : nat) (m : float) : dict :=
  [("image_path", VStr image_path);
   ("timestamp", VStr (datetime_clock env (S (S (readings w)))));
   ("inference_time_ms",
     VFloat (Float.round2
               (mul64 (sub64 (time_clock env (S (readings w)))
                             (time_clock env (readings w)))
                      (f64_of_Z 1000))));
   ("detected", VBool (gt m (confidence_threshold self)));
   ("primary_detection",
     if gt m (confidence_threshold self)
     then detection i (nth i LABELS "") m
     else VNone);
   ("top_predictions", VList (map (entry scores) (listed scores)));
   ("model_info",
     VDict [("model_path", VStr (model_path self));
            ("confidence_threshold", VFloat (confidence_threshold self));
            ("input_shape", VList (map VInt (input_shape (interpreter self))));
            ("total_classes", VInt 43)])].

Lemma detect_sign_ok (image_path : string) (w : World) (T : Tensor)
  (scores : list float) (rest : list (list float)) :
  preprocess_image env image_path (224, 224) = Ok T ->
  invoke (interpreter self) T = Ok (scores :: rest) ->
  List.length scores = 43 ->
  exists i m,
    argmax scores = Ok i /\ max scores = Ok m /\
    detect_sign env self image_path w =
    (Ok (success_record image_path w scores i m), tick (tick (tick w))).
Proof.
  intros Hpre Hinv Hlen.
  destruct (argmax_ok scores) as [i [m [Hi Hm]]].
  { intros E. rewrite E in Hlen. discriminate. }
  exists i, m. split; [exact Hi|]. split; [exact Hm|].
  destruct (argmax_max scores i m Hi Hm) as [Hlt _].
  unfold detect_sign, try_except, detect_sign_try, bind, lift, time_time,
    datetime_now_isoformat, ret.
  rewrite Hpre, Hinv. cbn [row0]. rewrite Hi, Hm.
  fold (top_indices scores).
  rewrite top_predictions_loop_ok.
  2:{ apply Forall_forall. intros idx Hidx. apply top_indices_in in Hidx. lia. }
  cbn [app readings tick].
  rewrite (LABELS_item_ok i) by lia.
  unfold success_record, listed.
  destruct (gt m (confidence_threshold self)); reflexivity.
Qed.

(** *** What is listed against what is detected *)

Lemma numbers_item (scores : list float) (i : nat) :
  existsb is_nan scores = false -> i < List.length scores ->
  is_nan (item scores i) = false.
Proof.
  intros Hn Hi. destruct (is_nan (item scores i)) eqn:E; [|reflexivity].
  rewrite <- Hn. symmetry. apply existsb_exists.
  exists (item scores i). split; [apply nth_In; exact Hi | exact E].
Qed.

(** An entry is listed only with a score above the threshold. *)
Lemma listed_spec (scores : list float) (idx : nat) :
  In idx (listed scores) ->
  idx < List.length scores /\
  gt (item scores idx) (confidence_threshold self) = true.
Proof.
  unfold listed. intros H. apply filter_In in H as [H1 H2].
  split; [now apply top_indices_in | exact H2].
Qed.

(** When the maximum is above the threshold, an index of a greatest score
    is listed. *)
Lemma detected_listed (scores : list float) (m : float) :
  max scores = Ok m ->
  gt m (confidence_threshold self) = true ->
  listed scores <> [].
Proof.
  intros Hm Hgt.
  assert (Hne : scores <> []) by (intros ->; discriminate).
  destruct (top_indices_greatest scores Hne) as [g [Hg Hall]].
  assert (Hnum : existsb is_nan scores = false).
  { rewrite <- (max_is_nan scores m Hm). eapply lt_not_nan_r. exact Hgt. }
  destruct (In_nth scores m S754_nan (max_in scores m Hm)) as [j [Hj Ej]].
  assert (Hgl : g < List.length scores) by now apply top_indices_in.
  assert (Hle : le m (item scores g) = true).
  { rewrite <- Ej. apply before_le; [now apply numbers_item.. |]. now apply Hall. }
  intros E. assert (Hin : In g (listed scores)).
  { unfold listed. apply filter_In. split; [exact Hg|].
    unfold gt in *. eapply lt_le_trans; eauto. }
  rewrite E in Hin. destruct Hin.
Qed.

(** On an array of numbers, a listed entry means the maximum is above the
    threshold. *)
Lemma listed_detected (scores : list float) (m : float) :
  max scores = Ok m ->
  existsb is_nan scores = false ->
  listed scores <> [] ->
  gt m (confidence_threshold self) = true.
Proof.
  intros Hm Hnum Hne.
  destruct (listed scores) as [|idx l] eqn:E; [congruence|].
  destruct (listed_spec scores idx) as [Hlt Hgt]; [rewrite E; cbn; auto|].
  unfold gt in *. eapply lt_le_trans; [exact Hgt|].
  apply (max_upper scores m Hm Hnum). now apply nth_In.
Qed.

(** The listed indices: at most three, distinct, each above the threshold,
    in an order of scores that never increases. *)
Lemma listed_length (scores : list float) : List.length (listed scores) <= 3.
Proof.
  unfold listed. etransitivity; [apply filter_length_le | apply top_indices_length].
Qed.

Lemma listed_NoDup (scores : list float) : NoDup (listed scores).
Proof. unfold listed. apply NoDup_filter, top_indices_NoDup. Qed.

Lemma listed_sorted (scores : list float) :
  StronglySorted (fun i j => le (item scores j) (item scores i) = true)
                 (listed scores).
Proof.
  assert (H : StronglySorted (fun i j => before scores j i) (listed scores))
    by (apply filter_StronglySorted, top_indices_sorted).
  assert (Hin : forall idx, In idx (listed scores) ->
                            is_nan (item scores idx) = false).
  { intros idx Hidx. apply listed_spec in Hidx as [_ Hgt].
    eapply lt_not_nan_r. exact Hgt. }
  induction H as [|i l Hs IH Hi]; constructor.
  - apply IH. intros; apply Hin; cbn; auto.
  - rewrite Forall_forall in *. intros j Hj.
    apply before_le; [apply Hin; cbn; auto .. | apply Hi, Hj].
Qed.

(** *** The last places of an order that sorts *)

Lemma StronglySorted_app_l {A : Type} (R : A -> A -> Prop) (l1 l2 : list A) :
  StronglySorted R (l1 ++ l2) -> StronglySorted R l1.
Proof.
  induction l1 as [|x l1 IH]; cbn; intros H; [constructor|].
  inversion H as [|? ? Hs Hx]; subst. constructor; [now apply IH|].
  apply Forall_app in Hx. tauto.
Qed.

Lemma StronglySorted_last {A : Type} (R : A -> A -> Prop) (l : list A) (v x : A) :
  StronglySorted R (l ++ [v]) -> In x l -> R x v.
Proof.
  induction l as [|y l IH]; cbn; intros H Hx; [destruct Hx|].
  inversion H as [|? ? Hs Hy]; subst.
  destruct Hx as [->|Hx]; [|now apply IH].
  rewrite Forall_forall in Hy. apply Hy, in_or_app. cbn. auto.
Qed.

(** The index in the last place is one of the indices [X] once every
    other index holds a score that sorts strictly before the score at
    [x]. *)
Lemma sorted_last_among (a : list float) (l : list nat) (v x : nat)
  (X : nat -> bool) :
  StronglySorted (before a) (l ++ [v]) ->
  (forall j, In j (l ++ [v]) -> j < List.length a) ->
  In x (l ++ [v]) ->
  forallb (fun j => X j || sort_lt (item a j) (item a x))
          (seq 0 (List.length a)) = true ->
  X v = true.
Proof.
  intros Hs Hlt Hx Hall.
  rewrite forallb_forall in Hall.
  assert (Hv : In v (l ++ [v])) by (apply in_or_app; cbn; auto).
  specialize (Hall v). rewrite in_seq in Hall.
  specialize (Hall (conj (Nat.le_0_l v) (Hlt v Hv))).
  destruct (X v); [reflexivity|]. cbn in Hall.
  apply in_app_or in Hx as [Hx|[->|[]]].
  - pose proof (StronglySorted_last _ l v x Hs Hx) as Hb.
    unfold before in Hb. congruence.
  - pose proof (sort_lt_total _ _ Hall). congruence.
Qed.

Lemma NoDup_app_apart {A : Type} (l1 l2 : list A) (x : A) :
  NoDup (l1 ++ l2) -> In x l1 -> In x l2 -> False.
Proof.
  induction l1 as [|y l1 IH]; cbn; intros H H1 H2; [exact H1|].
  inversion H as [|? ? Hy Hnd]; subst.
  destruct H1 as [->|H1]; [|now apply IH].
  apply Hy, in_or_app. auto.
Qed.

Lemma StronglySorted_app_inv {A : Type} (R : A -> A -> Prop) (l1 l2 : list A)
  (x y : A) :
  StronglySorted R (l1 ++ l2) -> In x l1 -> In y l2 -> R x y.
Proof.
  induction l1 as [|z l1 IH]; cbn; intros H Hx Hy; [destruct Hx|].
  inversion H as [|? ? Hs Hz]; subst.
  destruct Hx as [->|Hx]; [|now apply IH].
  rewrite Forall_forall in Hz. apply Hz, in_or_app. auto.
Qed.

(** A set [X] of indices is on top of [a] when the score at every index
    outside [X] sorts strictly before the score at every index of [X]. *)
Definition on_top (a : list float) (X : nat -> bool) : bool :=
  forallb (fun x =>
             forallb (fun j => negb (X x) || X j ||
                               sort_lt (item a j) (item a x))
                     (seq 0 (List.length a)))
          (seq 0 (List.length a)).

Lemma on_top_spec (a : list float) (X : nat -> bool) (x j : nat) :
  on_top a X = true -> x < List.length a -> j < List.length a ->
  X x = true -> X j = false -> sort_lt (item a j) (item a x) = true.
Proof.
  unfold on_top. intros H Hx Hj Xx Xj.
  rewrite forallb_forall in H.
  specialize (H x). rewrite in_seq in H. specialize (H (conj (Nat.le_0_l x) Hx)).
  rewrite forallb_forall in H.
  specialize (H j). rewrite in_seq in H. specialize (H (conj (Nat.le_0_l j) Hj)).
  rewrite Xx, Xj in H. exact H.
Qed.

(** The last places of an order sorting [a], as many as [X] has indices,
    hold exactly the indices of a set [X] on top of [a]. *)
Lemma last_places (a : list float) (q t : list nat) (X : nat -> bool) :
  sorts a (q ++ t) ->
  on_top a X = true ->
  List.length t = List.length (filter X (seq 0 (List.length a))) ->
  forall j, In j t <-> (j < List.length a /\ X j = true).
Proof.
  intros Hp Htop Hlen.
  pose proof (sorts_strongly a _ Hp) as Hs.
  pose proof (sorts_NoDup a _ Hp) as Hnd.
  pose proof (fun j => sorts_in a _ j Hp) as Hin.
  assert (HndX : NoDup (filter X (seq 0 (List.length a))))
    by (apply NoDup_filter, seq_NoDup).
  assert (Hndt : NoDup t) by (apply NoDup_app_remove_l in Hnd; exact Hnd).
  assert (H1 : incl (filter X (seq 0 (List.length a))) t).
  { intros x Hx. apply filter_In in Hx as [Hx Xx]. apply in_seq in Hx.
    assert (Hxl : x < List.length a) by lia.
    apply Hin in Hxl as Hxp. apply in_app_or in Hxp as [Hxq|Hxt]; [|exact Hxt].
    exfalso.
    assert (Hincl : incl (x :: t) (filter X (seq 0 (List.length a)))).
    { intros y [<-|Hy].
      - apply filter_In. split; [apply in_seq; lia | exact Xx].
      - assert (Hyl : y < List.length a) by (apply Hin, in_or_app; auto).
        apply filter_In. split; [apply in_seq; lia|].
        destruct (X y) eqn:Xy; [reflexivity|].
        pose proof (StronglySorted_app_inv _ q t x y Hs Hxq Hy) as Hb.
        unfold before in Hb.
        rewrite (on_top_spec a X x y Htop Hxl Hyl Xx Xy) in Hb. discriminate. }
    assert (Hndx : NoDup (x :: t)).
    { constructor; [|exact Hndt]. intros Hxt.
      exact (NoDup_app_apart q t x Hnd Hxq Hxt). }
    pose proof (NoDup_incl_length Hndx Hincl) as Hle. cbn in Hle. lia. }
  assert (H2 : incl t (filter X (seq 0 (List.length a)))).
  { apply NoDup_length_incl; [exact HndX | lia | exact H1]. }
  intros j. split.
  - intros Hj. apply H2, filter_In in Hj as [Hj Xj]. apply in_seq in Hj.
    split; [lia | exact Xj].
  - intros [Hj Xj]. apply H1, filter_In. split; [apply in_seq; lia | exact Xj].
Qed.

(** With three scores or more, line 134 takes the last three places in
    reverse. *)
Lemma top_indices_three (scores : list float) :
  3 <= List.length scores ->
  exists q c u v,
    argsort (np env) scores = (q ++ [c; u; v])%list /\
    top_indices scores = [v; u; c].
Proof.
  intros Hlen. unfold top_indices, reversed, last3.
  pose proof (sorts_length scores _ (argsort_sorts (np env) scores)) as Hp.
  set (p := argsort (np env) scores) in *.
  pose proof (firstn_skipn (List.length p - 3) p) as Hsplit.
  pose proof (length_skipn (List.length p - 3) p) as Hl.
  destruct (skipn (List.length p - 3) p) as [|c [|u [|v [|z t]]]];
    cbn in Hl; try lia.
  exists (firstn (List.length p - 3) p), c, u, v. split; [now symmetry|].
  reflexivity.
Qed.

Lemma top_indices_places (scores : list float) :
  3 <= List.length scores ->
  exists q c u v,
    sorts scores (q ++ [c; u; v]) /\
    top_indices scores = [v; u; c] /\
    NoDup [c; u; v] /\
    c < List.length scores /\ u < List.length scores /\ v < List.length scores.
Proof.
  intros Hlen.
  destruct (top_indices_three scores Hlen) as [q [c [u [v [Hp Ht]]]]].
  pose proof (argsort_sorts (np env) scores) as Hs. rewrite Hp in Hs.
  exists q, c, u, v. split; [exact Hs|]. split; [exact Ht|].
  split; [apply sorts_NoDup, NoDup_app_remove_l in Hs; exact Hs|].
  repeat split; apply (sorts_in scores _ _ Hs), in_or_app; cbn; auto.
Qed.

(** The sets on top of one, two and three indices against the last
    places. *)
Lemma last_place_1 (a : list float) (q : list nat) (c u v : nat)
  (X : nat -> bool) :
  sorts a (q ++ [c; u; v]) -> on_top a X = true ->
  List.length (filter X (seq 0 (List.length a))) = 1 ->
  forall j, j = v <-> (j < List.length a /\ X j = true).
Proof.
  intros Hs Htop Hn j.
  replace (q ++ [c; u; v])%list with ((q ++ [c; u]) ++ [v])%list in Hs
    by (rewrite <- app_assoc; reflexivity).
  rewrite <- (last_places a _ [v] X Hs Htop) by (now rewrite Hn).
  cbn. intuition congruence.
Qed.

Lemma last_place_2 (a : list float) (q : list nat) (c u v : nat)
  (X : nat -> bool) :
  sorts a (q ++ [c; u; v]) -> on_top a X = true ->
  List.length (filter X (seq 0 (List.length a))) = 2 ->
  forall j, (j = u \/ j = v) <-> (j < List.length a /\ X j = true).
Proof.
  intros Hs Htop Hn j.
  replace (q ++ [c; u; v])%list with ((q ++ [c]) ++ [u; v])%list in Hs
    by (rewrite <- app_assoc; reflexivity).
  rewrite <- (last_places a _ [u; v] X Hs Htop) by (now rewrite Hn).
  cbn. intuition congruence.
Qed.

Lemma last_place_3 (a : list float) (q : list nat) (c u v : nat)
  (X : nat -> bool) :
  sorts a (q ++ [c; u; v]) -> on_top a X = true ->
  List.length (filter X (seq 0 (List.length a))) = 3 ->
  forall j, (j = c \/ j = u \/ j = v) <-> (j < List.length a /\ X j = true).
Proof.
  intros Hs Htop Hn j.
  rewrite <- (last_places a _ [c; u; v] X Hs Htop) by (now rewrite Hn).
  cbn. intuition congruence.
Qed.

End Decide.

(** The confidence and the class of an entry of [top_predictions]. *)
Definition confidence_of (v : value) : option float :=
  match v with
  | VDict d =>
      match lookup "confidence" d with Some (VFloat f) => Some f | _ => None end
  | _ => None
  end.

Definition class_id_of (v : value) : option Z :=
  match v with
  | VDict d =>
      match lookup "class_id" d with Some (VInt z) => Some z | _ => None end
  | _ => None
  end.

End Decision.

(** ** Concrete runs *)

Module Examples.

Import Float Py Sys NumPy NumPyFacts TrafficSignDetector.
Local Open Scope string_scope.

(** The binary64 value of a float32. *)
Definition widen (x : float) : float :=
  match x with
  | S754_finite s m e =>
      binary_normalize prec64 emax64 (cond_Zopp s (Zpos m)) e false
  | _ => x
  end.

(** The float32 score nearest to [n/d], as the detector reads it. *)
Definition score (n d : Z) : float := widen (div32 (f32_of_Z n) (f32_of_Z d)).

(** A score vector of length 43: the given scores at the given classes,
    0.0 everywhere else. *)
Fixpoint assoc (i : nat) (l : list (nat * float)) : float :=
  match l with
  | [] => S754_zero false
  | (j, x) :: l' => if Nat.eqb i j then x else assoc i l'
  end.

Definition scores_with (l : list (nat * float)) : list float :=
  map (fun i => assoc i l) (seq 0 43).

(** A model that answers every image with [scores]. *)
Definition model (scores : list float) : Interpreter :=
  MkInterpreter [1; 224; 224; 3] [1; 43] (fun _ => Ok [scores]).

(** A model of another task: 32x32 inputs, 10 classes. *)
Definition other_model : Interpreter :=
  MkInterpreter [1; 32; 32; 3] [1; 10]
    (fun _ => Raise (Exception "ValueError"
                       "Cannot set tensor: Dimension mismatch.")).

Definition grey : Image := MkImage (1%nat, 1%nat) (fun _ _ => (x80, x80, x80)).

Definition FileNotFoundError (path : string) : exn :=
  Exception "FileNotFoundError" ("No such file or directory: " ++ path).

(** Every path holds the grey image but [missing.png]; every model path
    holds [m] but [missing.lite]; the clocks advance by one second a
    reading; NumPy is [npx]. *)
Definition env_with (npx : NumPy.t) (m : Interpreter) : Env :=
  MkEnv npx
        (fun path => if String.eqb path "missing.png"
                     then Raise (FileNotFoundError path)
                     else Ok grey)
        (fun image _ _ _ => getpixel image 0%nat 0%nat)
        (fun path => if String.eqb path "missing.lite"
                     then Raise (FileNotFoundError path)
                     else Ok m)
        (fun n => f64_of_Z (Z.of_nat n))
        (fun n => "2024-01-01T00:00:00")
        (fun _ => Ok tt).

(** The same with the reference implementation of NumPy. *)
Definition env (m : Interpreter) : Env := env_with reference m.

Definition detector (m : Interpreter) : TrafficSignDetector.t :=
  MkDetector "models/gtsrb_model.lite" (dec64 3 10) m.

Definition w0 : World := MkWorld 0 [].

End Examples.

(** ** The decision policy of detect_sign *)

Import Float FloatFacts Py Sys NumPy NumPyFacts TrafficSignDetector Decision.
Local Open Scope string_scope.
Local Open Scope list_scope.
Local Open Scope nat_scope.

(** Three score vectors: class 14 alone above the threshold; classes 3 and
    7 tied at 0.5; a NaN at class 0 beside 0.9 at class 14 and 0.6 at
    class 1. *)
Definition stop_scores : list float :=
  Examples.scores_with [(14, Examples.score 98 100)].

Definition tied_scores : list float :=
  Examples.scores_with [(3, Examples.score 1 2); (7, Examples.score 1 2)].

Definition nan_scores : list float :=
  Examples.scores_with
    [(0, S754_nan); (14, Examples.score 9 10); (1, Examples.score 6 10)].

(** A run on a readable image with a model answering [scores], whatever
    the implementation of NumPy. *)
Lemma example_run (npx : NumPy.t) (scores : list float) (image_path : string) :
  String.eqb image_path "missing.png" = false ->
  List.length scores = 43 ->
  exists i m,
    argmax scores = Ok i /\ max scores = Ok m /\
    detect_sign (Examples.env_with npx (Examples.model scores))
                (Examples.detector (Examples.model scores))
                image_path Examples.w0 =
    (Ok (success_record (Examples.env_with npx (Examples.model scores))
                        (Examples.detector (Examples.model scores))
                        image_path Examples.w0 scores i m),
     tick (tick (tick Examples.w0))).
Proof.
  intros Hp Hlen.
  eapply detect_sign_ok with (rest := []); [|reflexivity|exact Hlen].
  unfold preprocess_image. cbn [Examples.env_with Image_open_convert_RGB].
  rewrite Hp. reflexivity.
Qed.






Lemma forallb_below (P : nat -> bool) (n : nat) :
  forallb P (seq 0 n) = true -> forall j, j < n -> P j = true.
Proof.
  intros H j Hj. rewrite forallb_forall in H. apply H, in_seq. lia.
Qed.

(** The tied classes 3 and 7 are the two entries listed, in one order or
    the other, whatever order [np.argsort] gives to equal scores. *)
Lemma tied_listed (npx : NumPy.t) :
  exists a b,
    listed (Examples.env_with npx (Examples.model tied_scores))
           (Examples.detector (Examples.model tied_scores)) tied_scores
    = [a; b] /\
    ((a = 3 /\ b = 7) \/ (a = 7 /\ b = 3)).
Proof.
  set (env := Examples.env_with npx (Examples.model tied_scores)).
  set (self := Examples.detector (Examples.model tied_scores)).
  destruct (top_indices_places env tied_scores) as
    [q [c [u [v [Hs [Ht [Hnd [Hc [Hu Hv]]]]]]]]]; [cbn; lia|].
  set (X := fun j => Nat.eqb j 3 || Nat.eqb j 7).
  assert (Htop : on_top tied_scores X = true) by (vm_compute; reflexivity).
  pose proof (last_place_2 tied_scores q c u v X Hs Htop eq_refl) as H.
  assert (Hlow : forall j, j < 43 -> X j = false ->
            gt (item tied_scores j) (confidence_threshold self) = false).
  { intros j Hj Xj.
    pose proof (forallb_below
      (fun j => X j || negb (gt (item tied_scores j) (confidence_threshold self)))
      43 ltac:(vm_compute; reflexivity) j Hj) as Hb.
    cbv beta in Hb. rewrite Xj in Hb. now apply negb_true_iff in Hb. }
  assert (Xc : X c = false).
  { destruct (X c) eqn:E; [|reflexivity].
    assert (Hcu : c = u \/ c = v) by (apply H; auto).
    inversion Hnd as [|? ? Hn1 Hn2]; subst. exfalso. apply Hn1.
    cbn. destruct Hcu; auto. }
  assert (H3 : 3 = u \/ 3 = v) by (apply H; split; [cbn; lia | reflexivity]).
  assert (H7 : 7 = u \/ 7 = v) by (apply H; split; [cbn; lia | reflexivity]).
  exists v, u. unfold listed. rewrite Ht. cbn [filter].
  rewrite (Hlow c Hc Xc).
  assert (Huv : (v = 3 /\ u = 7) \/ (v = 7 /\ u = 3)).
  { inversion Hnd as [|? ? Hn1 Hn2]; subst.
    inversion Hn2 as [|? ? Hn3 _]; subst.
    assert (u <> v) by (intros ->; apply Hn3; cbn; auto).
    lia. }
  split; [|exact Huv].
  destruct Huv as [[-> ->]|[-> ->]]; vm_compute; reflexivity.
Qed.


(** Class 14 alone above the threshold: it is the one entry listed. *)
Lemma stop_listed (npx : NumPy.t) :
  listed (Examples.env_with npx (Examples.model stop_scores))
         (Examples.detector (Examples.model stop_scores)) stop_scores = [14].
Proof.
  set (env := Examples.env_with npx (Examples.model stop_scores)).
  set (self := Examples.detector (Examples.model stop_scores)).
  destruct (top_indices_places env stop_scores) as
    [q [c [u [v [Hs [Ht [Hnd [Hc [Hu Hv]]]]]]]]]; [cbn; lia|].
  set (X := fun j => Nat.eqb j 14).
  assert (Htop : on_top stop_scores X = true) by (vm_compute; reflexivity).
  pose proof (last_place_1 stop_scores q c u v X Hs Htop eq_refl) as H.
  assert (Hlow : forall j, j < 43 -> j <> 14 ->
            gt (item stop_scores j) (confidence_threshold self) = false).
  { intros j Hj Hne.
    pose proof (forallb_below
      (fun j => X j || negb (gt (item stop_scores j) (confidence_threshold self)))
      43 ltac:(vm_compute; reflexivity) j Hj) as Hb.
    cbv beta in Hb. unfold X in Hb.
    apply Nat.eqb_neq in Hne. rewrite Hne in Hb. now apply negb_true_iff in Hb. }
  assert (Ev : 14 = v) by (apply H; split; [cbn; lia | reflexivity]).
  subst v.
  inversion Hnd as [|? ? Hn1 Hn2]; subst. inversion Hn2 as [|? ? Hn3 _]; subst.
  assert (u <> 14) by (intros ->; apply Hn3; cbn; auto).
  assert (c <> 14) by (intros ->; apply Hn1; cbn; auto).
  unfold listed. rewrite Ht. cbn [filter].
  rewrite (Hlow c Hc), (Hlow u Hu) by assumption.
  vm_compute. reflexivity.
Qed.

(** A NaN at class 0 sorts last, before it 0.9 at class 14 and 0.6 at
    class 1: the NaN is not above the threshold, the two others are
    listed. *)
Lemma nan_listed (npx : NumPy.t) :
  listed (Examples.env_with npx (Examples.model nan_scores))
         (Examples.detector (Examples.model nan_scores)) nan_scores = [14; 1].
Proof.
  set (env := Examples.env_with npx (Examples.model nan_scores)).
  set (self := Examples.detector (Examples.model nan_scores)).
  destruct (top_indices_places env nan_scores) as
    [q [c [u [v [Hs [Ht [Hnd [Hc [Hu Hv]]]]]]]]]; [cbn; lia|].
  pose proof (last_place_1 nan_scores q c u v (fun j => Nat.eqb j 0) Hs
                ltac:(vm_compute; reflexivity) eq_refl) as H1.
  pose proof (last_place_2 nan_scores q c u v
                (fun j => Nat.eqb j 0 || Nat.eqb j 14) Hs
                ltac:(vm_compute; reflexivity) eq_refl) as H2.
  pose proof (last_place_3 nan_scores q c u v
                (fun j => Nat.eqb j 0 || Nat.eqb j 14 || Nat.eqb j 1) Hs
                ltac:(vm_compute; reflexivity) eq_refl) as H3.
  assert (Ev : 0 = v) by (apply H1; split; [cbn; lia | reflexivity]).
  assert (Eu : 14 = u \/ 14 = v) by (apply H2; split; [cbn; lia | reflexivity]).
  assert (Ec : 1 = c \/ 1 = u \/ 1 = v)
    by (apply H3; split; [cbn; lia | reflexivity]).
  assert (v = 0 /\ u = 14 /\ c = 1) as [-> [-> ->]] by lia.
  unfold listed. rewrite Ht. vm_compute. reflexivity.
Qed.

(** A score vector with three classes above the threshold, and one with
    none. *)
Definition three_scores : list float :=
  Examples.scores_with
    [(14, Examples.score 9 10); (1, Examples.score 6 10);
     (2, Examples.score 4 10)].

Definition zero_scores : list float := Examples.scores_with [].

(** A successful run lists at most three entries, and one at least when
    it detects. *)
Lemma detect_sign_lists_detected
  (env : Env) (self : TrafficSignDetector.t) (image_path : string) (w : World)
  (T : Tensor) (scores : list float) (rest : list (list float)) :
  preprocess_image env image_path (224, 224) = Ok T ->
  invoke (interpreter self) T = Ok (scores :: rest) ->
  List.length scores = 43 ->
  exists r w' d tp,
    detect_sign env self image_path w = (Ok r, w') /\
    lookup "detected" r = Some (VBool d) /\
    lookup "top_predictions" r = Some (VList tp) /\
    List.length tp <= 3 /\
    (d = true -> tp <> []).
Proof.
  intros Hpre Hinv Hlen.
  destruct (detect_sign_ok env self image_path w T scores rest Hpre Hinv Hlen)
    as [i [m [Hi [Hm Hrun]]]].
  exists (success_record env self image_path w scores i m),
         (tick (tick (tick w))), (gt m (confidence_threshold self)),
         (map (entry scores) (listed env self scores)).
  split; [exact Hrun|]. split; [reflexivity|]. split; [reflexivity|].
  split; [rewrite length_map; apply listed_length|].
  intros Hd E. apply map_eq_nil in E.
  exact (detected_listed env self scores m Hm Hd E).
Qed.




(** The comparison of line 138 as NumPy 2 makes it: the threshold is
    rounded to float32 and the two float32 values are compared.  It agrees
    with the binary64 comparison except on a score equal to the rounded
    threshold: 0.3 rounds upwards to float32, and the float32 score nearest
    to 0.3 is above 0.3 in binary64 and not above it in float32. *)
Definition narrow (x : float) : float :=
  match x with
  | S754_finite s m e =>
      binary_normalize prec32 emax32 (cond_Zopp s (Zpos m)) e false
  | _ => x
  end.

Definition gt_float32 (x t : float) : bool := gt (narrow x) (narrow t).

Remark rounded_threshold_edge :
  gt (Examples.score 3 10) (dec64 3 10) = true /\
  gt_float32 (Examples.score 3 10) (dec64 3 10) = false /\
  gt_float32 (Examples.score 98 100) (dec64 3 10) = true /\
  gt_float32 (Examples.score 1 10) (dec64 3 10) = false.
Proof. vm_compute. repeat split; reflexivity. Qed.

(** C7 (amended): for a score vector of numbers (no NaN among the scores),
    a non-empty [top_predictions] comes with [detected] true: a listed
    score is above the threshold and the maximum is no less. *)
Theorem top_predictions_nonempty_detected
  (env : Env) (self : TrafficSignDetector.t) (image_path : string) (w : World)
  (T : Tensor) (scores : list float) (rest : list (list float)) :
  preprocess_image env image_path (224, 224) = Ok T ->
  invoke (interpreter self) T = Ok (scores :: rest) ->
  List.length scores = 43 ->
  existsb is_nan scores = false ->
  exists r w' tp,
    detect_sign env self image_path w = (Ok r, w') /\
    lookup "top_predictions" r = Some (VList tp) /\
    (tp <> [] -> lookup "detected" r = Some (VBool true)).
Proof.
  intros Hpre Hinv Hlen Hnum.
  destruct (detect_sign_ok env self image_path w T scores rest Hpre Hinv Hlen)
    as [i [m [Hi [Hm Hrun]]]].
  exists (success_record env self image_path w scores i m),
         (tick (tick (tick w))),
         (map (entry scores) (listed env self scores)).
  split; [exact Hrun|]. split; [reflexivity|].
  intros Hne. cbn.
  rewrite (listed_detected env self scores m Hm Hnum); [reflexivity|].
  intros E. apply Hne. now rewrite E.
Qed.

Lemma top_predictions_nonempty_detected_witness :
  exists T,
    preprocess_image (Examples.env (Examples.model tied_scores)) "sign.png"
                     (224, 224) = Ok T /\
    invoke (Examples.model tied_scores) T = Ok [tied_scores] /\
    List.length tied_scores = 43 /\
    existsb is_nan tied_scores = false /\
    exists r w' tp,
      detect_sign (Examples.env (Examples.model tied_scores))
                  (Examples.detector (Examples.model tied_scores))
                  "sign.png" Examples.w0 = (Ok r, w') /\
      lookup "top_predictions" r = Some (VList tp) /\
      (tp <> [] -> lookup "detected" r = Some (VBool true)).
Proof.
  eexists. split; [reflexivity|]. split; [reflexivity|].
  split; [reflexivity|]. split; [reflexivity|].
  eapply (top_predictions_nonempty_detected
            (Examples.env (Examples.model tied_scores))
            (Examples.detector (Examples.model tied_scores))
            "sign.png" Examples.w0 _ tied_scores []);
    reflexivity.
Defined.

(** C7 as stated fails on a score vector that holds a NaN: with NaN at
    class 0, 0.9 at class 14 and 0.6 at class 1, [np.max] is NaN, which is
    not above the threshold 0.3, so [detected] is false and
    [primary_detection] is [None]; [np.argsort] places the NaN last, and
    the two scores next to it are listed.  This holds under every
    implementation of [np.argsort]. *)
Lemma nan_listed_undetected :
  max nan_scores = Ok S754_nan /\
  forall npx : NumPy.t,
    exists r w',
      detect_sign (Examples.env_with npx (Examples.model nan_scores))
                  (Examples.detector (Examples.model nan_scores))
                  "sign.png" Examples.w0 = (Ok r, w') /\
      lookup "detected" r = Some (VBool false) /\
      lookup "primary_detection" r = Some VNone /\
      lookup "top_predictions" r =
      Some (VList [detection 14 "Stop" (Examples.score 9 10);
                   detection 1 "Speed limit (30km/h)" (Examples.score 6 10)]).
Proof.
  split; [vm_compute; reflexivity|].
  intros npx.
  destruct (example_run npx nan_scores "sign.png") as [i [m [Hi [Hm Hrun]]]];
    [reflexivity | reflexivity |].
  vm_compute in Hm. injection Hm as Em. subst m.
  eexists. eexists. split; [exact Hrun|].
  unfold success_record. cbn [lookup String.eqb Ascii.eqb Bool.eqb].
  rewrite nan_listed. repeat split; vm_compute; reflexivity.
Qed.

(** ** Failures of detect_sign *)

Section Failures.

Variable env : Env.
Variable self : TrafficSignDetector.t.

(** The dictionary of lines 169-174 for the exception [e], the clock read
    in the world [w1] the [try] body left. *)
Definition error_record (image_path : string) (w1 : World) (e : exn) : dict :=
  [("image_path", VStr image_path);
   ("timestamp", VStr (datetime_clock env (readings w1)));
   ("error", VStr (str e));
   ("detected", VBool false)].

(** Whatever the [try] body raises is caught and becomes the error
    record. *)
Lemma detect_sign_caught (image_path : string) (w w1 : World) (e : exn) :
  detect_sign_try env self image_path w = (Raise e, w1) ->
  detect_sign env self image_path w =
  (Ok (error_record image_path w1 e), tick w1).
Proof.
  intros H. unfold detect_sign, try_except. rewrite H. reflexivity.
Qed.

Lemma detect_sign_returned (image_path : string) (w w1 : World) (r : dict) :
  detect_sign_try env self image_path w = (Ok r, w1) ->
  detect_sign env self image_path w = (Ok r, w1).
Proof.
  intros H. unfold detect_sign, try_except. rewrite H. reflexivity.
Qed.

(** A failure of preprocessing or of the inference is raised by the [try]
    body. *)
Definition fails (image_path : string) (e : exn) : Prop :=
  preprocess_image env image_path (224, 224) = Raise e \/
  exists T, preprocess_image env image_path (224, 224) = Ok T /\
            invoke (interpreter self) T = Raise e.

Lemma detect_sign_try_fails (image_path : string) (w : World) (e : exn) :
  fails image_path e ->
  exists w1, detect_sign_try env self image_path w = (Raise e, w1).
Proof.
  unfold detect_sign_try, bind, lift, time_time.
  intros [H|[T [H1 H2]]].
  - rewrite H. eauto.
  - rewrite H1, H2. eauto.
Qed.

(** The [try] body never returns anything but the dictionary of lines
    146-163. *)
Lemma detect_sign_try_shape (image_path : string) (w w1 : World) (r : dict) :
  detect_sign_try env self image_path w = (Ok r, w1) ->
  exists ts it d pd tp mi,
    r = [("image_path", VStr image_path);
         ("timestamp", VStr ts);
         ("inference_time_ms", VFloat it);
         ("detected", VBool d);
         ("primary_detection", pd);
         ("top_predictions", VList tp);
         ("model_info", VDict mi)] /\
    (d = true -> exists i l c, pd = detection i l c) /\
    (d = false -> pd = VNone).
Proof.
  unfold detect_sign_try, bind, lift, time_time, datetime_now_isoformat, ret.
  destruct (preprocess_image env image_path (224, 224)) as [T|e];
    [|discriminate].
  destruct (invoke (interpreter self) T) as [out|e]; [|discriminate].
  destruct (row0 out) as [scores|e]; [|discriminate].
  destruct (argmax scores) as [i|e]; [|discriminate].
  destruct (max scores) as [m|e]; [|discriminate].
  destruct (top_predictions_loop self scores _ []) as [tp|e]; [|discriminate].
  destruct (gt m (confidence_threshold self)) eqn:Hd.
  - destruct (LABELS_item i) as [l|e]; [|discriminate].
    intros [= <- <-]. do 6 eexists. split; [reflexivity|].
    split; [eauto | discriminate].
  - intros [= <- <-]. do 6 eexists. split; [reflexivity|].
    split; [discriminate | reflexivity].
Qed.

(** Every run returns a record, and the record names its image. *)
Lemma detect_sign_returns (image_path : string) (w : World) :
  exists r w',
    detect_sign env self image_path w = (Ok r, w') /\
    lookup "image_path" r = Some (VStr image_path).
Proof.
  destruct (detect_sign_try env self image_path w) as [[r|e] w1] eqn:Htry.
  - exists r, w1. split; [now apply detect_sign_returned|].
    destruct (detect_sign_try_shape image_path w w1 r Htry)
      as [ts [it [d [pd [tp [mi [-> _]]]]]]].
    reflexivity.
  - exists (error_record image_path w1 e), (tick w1).
    split; [now apply detect_sign_caught | reflexivity].
Qed.

End Failures.

(** C3: [detect_sign] returns a record for every path and never raises.
    When preprocessing or the inference fails with [e], and for whatever
    else the [try] body raises, the record has [detected] false, the message
    [str(e)] under [error], and neither [primary_detection] nor
    [top_predictions].  The record is a detection, a non-detection or an
    error. *)
Theorem detect_sign_never_raises
  (env : Env) (self : TrafficSignDetector.t) (image_path : string) (w : World) :
  exists r w',
    detect_sign env self image_path w = (Ok r, w') /\
    lookup "image_path" r = Some (VStr image_path) /\
    (forall e,
       fails env self image_path e \/
       (exists w1, detect_sign_try env self image_path w = (Raise e, w1)) ->
       lookup "detected" r = Some (VBool false) /\
       lookup "error" r = Some (VStr (str e)) /\
       lookup "primary_detection" r = None /\
       lookup "top_predictions" r = None) /\
    ((exists i l c,
        lookup "error" r = None /\
        lookup "detected" r = Some (VBool true) /\
        lookup "primary_detection" r = Some (detection i l c)) \/
     (lookup "error" r = None /\
      lookup "detected" r = Some (VBool false) /\
      lookup "primary_detection" r = Some VNone) \/
     (exists e,
        lookup "error" r = Some (VStr (str e)) /\
        lookup "detected" r = Some (VBool false) /\
        lookup "primary_detection" r = None)).
Proof.
  destruct (detect_sign_try env self image_path w) as [[r|e] w1] eqn:Htry.
  - exists r, w1. split; [now apply detect_sign_returned|].
    destruct (detect_sign_try_shape env self image_path w w1 r Htry)
      as [ts [it [d [pd [tp [mi [-> [Ht Hf]]]]]]]].
    split; [reflexivity|]. split.
    + intros e [Hfail|[w2 Hraise]]; [|discriminate].
      destruct (detect_sign_try_fails env self image_path w e Hfail) as [w2 H2].
      rewrite H2 in Htry. discriminate.
    + destruct d.
      * left. destruct (Ht eq_refl) as [i [l [c ->]]]. exists i, l, c.
        repeat split; reflexivity.
      * right. left. rewrite (Hf eq_refl). repeat split; reflexivity.
  - exists (error_record env image_path w1 e), (tick w1).
    split; [now apply detect_sign_caught|]. split; [reflexivity|]. split.
    + intros e' H.
      assert (He : e' = e).
      { destruct H as [Hfail|[w2 Hraise]].
        - destruct (detect_sign_try_fails env self image_path w e' Hfail)
            as [w2 H2]. congruence.
        - congruence. }
      subst e'. repeat split; reflexivity.
    + right. right. exists e. repeat split; reflexivity.
Qed.

(** C10: the record of a failed run holds the four fields [image_path],
    [timestamp], [error] and [detected] and no other: [top_predictions],
    [inference_time_ms] and [model_info] are absent. *)
Theorem error_record_fields
  (env : Env) (self : TrafficSignDetector.t) (image_path : string) (w : World)
  (e : exn) :
  fails env self image_path e ->
  exists r w',
    detect_sign env self image_path w = (Ok r, w') /\
    keys r = ["image_path"; "timestamp"; "error"; "detected"] /\
    lookup "error" r = Some (VStr (str e)) /\
    lookup "detected" r = Some (VBool false) /\
    lookup "top_predictions" r = None /\
    lookup "inference_time_ms" r = None /\
    lookup "model_info" r = None /\
    lookup "primary_detection" r = None.
Proof.
  intros Hfail.
  destruct (detect_sign_try_fails env self image_path w e Hfail) as [w1 H1].
  exists (error_record env image_path w1 e), (tick w1).
  split; [now apply detect_sign_caught|].
  repeat split; reflexivity.
Qed.

Lemma error_record_fields_witness :
  fails (Examples.env (Examples.model stop_scores))
        (Examples.detector (Examples.model stop_scores))
        "missing.png" (Examples.FileNotFoundError "missing.png") /\
  exists r w',
    detect_sign (Examples.env (Examples.model stop_scores))
                (Examples.detector (Examples.model stop_scores))
                "missing.png" Examples.w0 = (Ok r, w') /\
    keys r = ["image_path"; "timestamp"; "error"; "detected"] /\
    lookup "error" r =
    Some (VStr (str (Examples.FileNotFoundError "missing.png"))) /\
    lookup "detected" r = Some (VBool false) /\
    lookup "top_predictions" r = None /\
    lookup "inference_time_ms" r = None /\
    lookup "model_info" r = None /\
    lookup "primary_detection" r = None.
Proof.
  split.
  - left. reflexivity.
  - apply (error_record_fields
             (Examples.env (Examples.model stop_scores))
             (Examples.detector (Examples.model stop_scores))
             "missing.png" Examples.w0
             (Examples.FileNotFoundError "missing.png")).
    left. reflexivity.
Defined.

(** ** detect_batch *)

Section Batch.

Variable env : Env.
Variable self : TrafficSignDetector.t.

(** [r] is what [detect_sign] returns for [image_path] in some world. *)
Definition result_of (image_path : string) (r : dict) : Prop :=
  exists wi wi', detect_sign env self image_path wi = (Ok r, wi').

Lemma result_of_image_path (image_path : string) (r : dict) :
  result_of image_path r -> lookup "image_path" r = Some (VStr image_path).
Proof.
  intros [wi [wi' H]].
  destruct (detect_sign_returns env self image_path wi)
    as [r1 [w1 [H1 H2]]].
  congruence.
Qed.

Lemma result_of_failure (image_path : string) (r : dict) (e : exn) :
  result_of image_path r -> fails env self image_path e ->
  lookup "error" r = Some (VStr (str e)) /\
  lookup "detected" r = Some (VBool false).
Proof.
  intros [wi [wi' H]] Hfail.
  destruct (detect_sign_try_fails env self image_path wi e Hfail) as [w1 H1].
  rewrite (detect_sign_caught env self image_path wi w1 e H1) in H.
  injection H as Hr _. subst r. split; reflexivity.
Qed.

(** The loop of lines 191-194 appends one result for each path, in the
    order of the paths. *)
Lemma detect_batch_loop_spec (image_paths : list string) :
  forall (results : list dict) (w : World),
  exists rs w',
    detect_batch_loop env self image_paths results w =
    (Ok (results ++ rs)%list, w') /\
    Forall2 result_of image_paths rs.
Proof.
  induction image_paths as [|image_path rest IH]; intros results w; cbn.
  - exists [], w. rewrite app_nil_r. split; [reflexivity | constructor].
  - destruct (detect_sign_returns env self image_path w)
      as [r [w1 [Hr _]]].
    destruct (IH (results ++ [r]) w1) as [rs [w' [Hloop Hall]]].
    exists (r :: rs), w'. split.
    + unfold bind. rewrite Hr, Hloop. rewrite <- app_assoc. reflexivity.
    + constructor; [|exact Hall]. exists w, w1. exact Hr.
Qed.

Lemma Forall2_nth_both {A B : Type} (R : A -> B -> Prop) (l1 : list A)
  (l2 : list B) (d1 : A) (d2 : B) :
  Forall2 R l1 l2 ->
  forall i, i < List.length l1 -> R (nth i l1 d1) (nth i l2 d2).
Proof.
  induction 1 as [|x y l1 l2 Hxy _ IH]; intros i Hi; cbn in *; [lia|].
  destruct i as [|i]; [exact Hxy|]. apply IH. lia.
Qed.

End Batch.

(** C4: [detect_batch] returns as many results as there are paths; the
    result at each position is the one [detect_sign] returns for the path at
    that position and carries that path as [image_path]; an item that fails
    is recorded with its error and the loop goes on. *)
Theorem detect_batch_ordered
  (env : Env) (self : TrafficSignDetector.t) (image_paths : list string)
  (w : World) :
  exists results w',
    detect_batch env self image_paths w = (Ok results, w') /\
    List.length results = List.length image_paths /\
    forall i, i < List.length image_paths ->
      result_of env self (nth i image_paths "") (nth i results []) /\
      lookup "image_path" (nth i results []) =
      Some (VStr (nth i image_paths "")) /\
      (forall e, fails env self (nth i image_paths "") e ->
         lookup "error" (nth i results []) = Some (VStr (str e)) /\
         lookup "detected" (nth i results []) = Some (VBool false)).
Proof.
  destruct (detect_batch_loop_spec env self image_paths [] w)
    as [rs [w' [Hloop Hall]]].
  exists rs, w'. split; [exact Hloop|].
  split; [symmetry; eapply Forall2_length; exact Hall|].
  intros i Hi.
  pose proof (Forall2_nth_both _ _ _ "" [] Hall i Hi) as Hr.
  split; [exact Hr|].
  split; [exact (result_of_image_path env self _ _ Hr)|].
  intros e He. exact (result_of_failure env self _ _ e Hr He).
Qed.

(** ** The summary of save_results_to_json *)

(** A result record: [detected], when present, is a boolean and
    [inference_time_ms], when present, is a float, as in the records
    [detect_sign] returns. *)
Definition result_record (r : dict) : bool :=
  match lookup "detected" r with
  | None | Some (VBool _) => true
  | _ => false
  end &&
  match lookup "inference_time_ms" r with
  | None | Some (VFloat _) => true
  | _ => false
  end.

(** [detected == true]. *)
Definition is_detected (r : dict) : bool :=
  match lookup "detected" r with
  | Some (VBool true) => true
  | _ => false
  end.

(** The [inference_time_ms] of the records that carry one, in order. *)
Fixpoint timings (results : list dict) : list float :=
  match results with
  | [] => []
  | r :: rest =>
      match lookup "inference_time_ms" r with
      | Some (VFloat f) => f :: timings rest
      | _ => timings rest
      end
  end.

Lemma detect_sign_result_record
  (env : Env) (self : TrafficSignDetector.t) (image_path : string) (r : dict) :
  result_of env self image_path r -> result_record r = true.
Proof.
  intros [wi [wi' H]]. unfold detect_sign, try_except in H.
  destruct (detect_sign_try env self image_path wi) as [[r1|e] w1] eqn:Htry.
  - injection H as Hr _. subst r1.
    destruct (detect_sign_try_shape env self image_path wi w1 r Htry)
      as [ts [it [d [pd [tp [mi [-> _]]]]]]].
    reflexivity.
  - cbv in H. injection H as Hr _. subst r. reflexivity.
Qed.

Lemma truthy_detected (r : dict) :
  result_record r = true ->
  truthy (get r "detected" (VBool false)) = is_detected r.
Proof.
  unfold result_record, get, is_detected. intros H.
  apply andb_prop in H as [H _].
  destruct (lookup "detected" r) as [[]|]; try discriminate; try reflexivity.
  now destruct b.
Qed.

Lemma inference_times_timings (results : list dict) :
  forallb result_record results = true ->
  map (fun r => get r "inference_time_ms" (VInt 0))
      (filter (contains "inference_time_ms") results) =
  map VFloat (timings results).
Proof.
  induction results as [|r rest IH]; cbn [forallb filter timings map];
    [reflexivity|].
  intros H. apply andb_prop in H as [Hr Hrest].
  unfold result_record in Hr. apply andb_prop in Hr as [_ Hr].
  specialize (IH Hrest).
  assert (Hc : contains "inference_time_ms" r =
               match lookup "inference_time_ms" r with
               | Some _ => true | None => false end) by reflexivity.
  assert (Hg : get r "inference_time_ms" (VInt 0) =
               match lookup "inference_time_ms" r with
               | Some v => v | None => VInt 0 end) by reflexivity.
  destruct (lookup "inference_time_ms" r) as [[]|]; try discriminate;
    rewrite Hc; cbn [map]; rewrite ?Hg, IH; reflexivity.
Qed.

Lemma filter_detected (results : list dict) :
  forallb result_record results = true ->
  filter (fun r => truthy (get r "detected" (VBool false))) results =
  filter is_detected results.
Proof.
  intros H. apply filter_ext_in. intros r Hr.
  apply truthy_detected. rewrite forallb_forall in H. now apply H.
Qed.


(** Three records: two detections taking 12.5 ms and 7.25 ms, and one
    error. *)
Definition three_records : list dict :=
  [[("image_path", VStr "a.png");
    ("inference_time_ms", VFloat (dec64 1250 100));
    ("detected", VBool true)];
   [("image_path", VStr "b.png");
    ("error", VStr "cannot identify image file");
    ("detected", VBool false)];
   [("image_path", VStr "c.png");
    ("inference_time_ms", VFloat (dec64 725 100));
    ("detected", VBool true)]].


(** The summary of the three records: 3 images, 2 detections, 1 failure,
    66.67 percent, and the mean 9.88 of 12.5 and 7.25 (9.875, an exact tie
    rounded to the even digit); and the summary of no record at all. *)
Example three_records_summary :
  exists ts w',
    save_results_to_json (Examples.env (Examples.model stop_scores))
                         three_records "out.json" Examples.w0 = (Ok tt, w') /\
    files w' =
    [("out.json",
      VDict [("detection_summary",
               VDict [("total_images", VInt 3);
                      ("successful_detections", VInt 2);
                      ("failed_detections", VInt 1);
                      ("success_rate", VFloat (dec64 6667 100));
                      ("average_inference_time_ms", VFloat (dec64 988 100));
                      ("detection_timestamp", VStr ts)]);
             ("detections", VList (map VDict three_records))])].
Proof. eexists. eexists. split; vm_compute; reflexivity. Qed.

Example no_record_summary :
  exists ts w',
    save_results_to_json (Examples.env (Examples.model stop_scores))
                         [] "out.json" Examples.w0 = (Ok tt, w') /\
    files w' =
    [("out.json",
      VDict [("detection_summary",
               VDict [("total_images", VInt 0);
                      ("successful_detections", VInt 0);
                      ("failed_detections", VInt 0);
                      ("success_rate", VInt 0);
                      ("average_inference_time_ms", VInt 0);
                      ("detection_timestamp", VStr ts)]);
             ("detections", VList [])])].
Proof. eexists. eexists. split; vm_compute; reflexivity. Qed.

(** ** Loading the model *)



(** ** The tensor of preprocess_image *)

(** [T.shape == (n, h, w, c)] for an array given by nested lists. *)
Definition has_shape (T : Tensor) (n h w c : nat) : Prop :=
  List.length T = n /\
  Forall (fun a =>
            List.length a = h /\
            Forall (fun row =>
                      List.length row = w /\
                      Forall (fun px => List.length px = c) row) a) T.

(** [T[n][y][x][c]]. *)
Definition sample (T : Tensor) (n y x c : nat) : float :=
  nth c (nth x (nth y (nth n T []) []) []) S754_nan.

(** The band [c] of a pixel. *)
Definition band (c : nat) (p : rgb) : byte :=
  let '(r, g, b) := p in
  match c with
  | 0 => r
  | 1 => g
  | _ => b
  end.

(** Every byte divided by 255.0 in float32 is a float32 in [0, 1]. *)
Lemma normalized_byte (b : byte) :
  valid_binary prec32 emax32 (div32 (float32_of_byte b) f32_255) = true /\
  le (S754_zero false) (div32 (float32_of_byte b) f32_255) = true /\
  le (div32 (float32_of_byte b) f32_255) (f32_of_Z 1) = true.
Proof. destruct b; vm_compute; repeat split; reflexivity. Qed.

Lemma nth_map_inside {A B : Type} (f : A -> B) (l : list A) (i : nat)
  (dA : A) (dB : B) :
  i < List.length l -> nth i (map f l) dB = f (nth i l dA).
Proof.
  intros Hi.
  rewrite (nth_indep (map f l) dB (f dA)) by (now rewrite length_map).
  apply map_nth.
Qed.

Lemma nth_map_seq {A : Type} (f : nat -> A) (n i : nat) (d : A) :
  i < n -> nth i (map f (seq 0 n)) d = f i.
Proof.
  intros Hi. rewrite (nth_map_inside f (seq 0 n) i 0 d)
    by (now rewrite length_seq).
  now rewrite seq_nth.
Qed.

Lemma np_array_float32_sample (image : Image) (y x c : nat) :
  y < snd (size image) -> x < fst (size image) -> c < 3 ->
  nth c (nth x (nth y (np_array_float32 image) []) []) S754_nan =
  float32_of_byte (band c (getpixel image x y)).
Proof.
  intros Hy Hx Hc. unfold np_array_float32.
  destruct (size image) as [width height]. cbn [fst snd] in *.
  rewrite nth_map_seq by exact Hy. rewrite nth_map_seq by exact Hx.
  destruct (getpixel image x y) as [[r g] b]. cbn [band].
  destruct c as [|[|[|c]]]; try reflexivity. lia.
Qed.

Lemma np_array_float32_shape (image : Image) :
  List.length (np_array_float32 image) = snd (size image) /\
  Forall (fun row =>
            List.length row = fst (size image) /\
            Forall (fun px => List.length px = 3) row)
         (np_array_float32 image).
Proof.
  unfold np_array_float32. destruct (size image) as [width height].
  cbn [fst snd]. split; [now rewrite length_map, length_seq|].
  apply Forall_map, Forall_forall. intros y _.
  split; [now rewrite length_map, length_seq|].
  apply Forall_map, Forall_forall. intros x _.
  now destruct (getpixel image x y) as [[r g] b].
Qed.

Lemma divide_255_sample (a : list (list (list float))) (y x c : nat) :
  y < List.length a ->
  x < List.length (nth y a []) ->
  c < List.length (nth x (nth y a []) []) ->
  nth c (nth x (nth y (divide_255 a) []) []) S754_nan =
  div32 (nth c (nth x (nth y a []) []) S754_nan) f32_255.
Proof.
  intros Hy Hx Hc. unfold divide_255.
  rewrite (nth_map_inside _ a y [] []) by exact Hy.
  rewrite (nth_map_inside _ (nth y a []) x [] []) by exact Hx.
  now rewrite (nth_map_inside _ (nth x (nth y a []) []) c S754_nan S754_nan).
Qed.

Lemma divide_255_shape (a : list (list (list float))) (h w c : nat) :
  List.length a = h /\
  Forall (fun row =>
            List.length row = w /\ Forall (fun px => List.length px = c) row) a ->
  List.length (divide_255 a) = h /\
  Forall (fun row =>
            List.length row = w /\ Forall (fun px => List.length px = c) row)
         (divide_255 a).
Proof.
  intros [Hh Ha]. unfold divide_255. split; [now rewrite length_map|].
  apply Forall_map. eapply Forall_impl; [|exact Ha].
  intros row [Hw Hrow]. split; [now rewrite length_map|].
  apply Forall_map. eapply Forall_impl; [|exact Hrow].
  intros px Hpx. now rewrite length_map.
Qed.



(** * Further properties of the detector *)

(** ** The class of the primary detection among tied classes *)

Lemma le_lt_trans (a b c : float) :
  le a b = true -> lt b c = true -> lt a c = true.
Proof.
  unfold le, lt, SFleb, SFltb. intros H1 H2.
  FloatFacts.float_cases; FloatFacts.cmp_cases.
Qed.

(** The scan of [np.argmax] over numbers ends on the first index that
    holds the maximum: every index before it holds a strictly smaller
    score. *)
Lemma argmax_scan_first (a pre : list float) (mp : float) (best : nat) :
  is_nan mp = false ->
  existsb is_nan a = false ->
  nth best pre S754_nan = mp ->
  best < List.length pre ->
  (forall j, j < best -> lt (nth j pre S754_nan) mp = true) ->
  (forall j, j < List.length pre -> le (nth j pre S754_nan) mp = true) ->
  forall j, j < argmax_scan a (List.length pre) mp best ->
    lt (nth j (pre ++ a) S754_nan) (fold_left maximum a mp) = true.
Proof.
  revert pre mp best.
  induction a as [|x a IH]; intros pre mp best Hmp Hnum Hb Hlt Hless Hle; cbn.
  - rewrite app_nil_r. exact Hless.
  - cbn in Hnum. apply orb_false_elim in Hnum as [Hx Hnum].
    assert (Hlen : List.length (pre ++ [x]) = S (List.length pre))
      by (rewrite length_app; cbn; lia).
    assert (Happ : pre ++ x :: a = (pre ++ [x]) ++ a)
      by (rewrite <- app_assoc; reflexivity).
    destruct (maximum_cases mp x Hmp) as [[Hxle E]|[Hxle E]]; rewrite E, Hxle;
      cbn [negb]; rewrite ?Hx; rewrite Happ, <- Hlen.
    + apply IH; auto.
      * rewrite app_nth1; auto.
      * rewrite Hlen. lia.
      * intros j Hj. rewrite app_nth1 by lia. auto.
      * intros j Hj. rewrite Hlen in Hj.
        destruct (Nat.eq_dec j (List.length pre)) as [->|Hne].
        -- rewrite app_nth2, Nat.sub_diag by lia. exact Hxle.
        -- rewrite app_nth1 by lia. apply Hle. lia.
    + assert (Hmx : lt mp x = true) by (apply le_false_lt; auto).
      apply IH; auto.
      * rewrite app_nth2, Nat.sub_diag by lia. reflexivity.
      * rewrite Hlen. lia.
      * intros j Hj. rewrite app_nth1 by lia.
        eapply le_lt_trans; [apply Hle; lia | exact Hmx].
      * intros j Hj. rewrite Hlen in Hj.
        destruct (Nat.eq_dec j (List.length pre)) as [->|Hne].
        -- rewrite app_nth2, Nat.sub_diag by lia. now apply le_refl.
        -- rewrite app_nth1 by lia. apply lt_le.
           eapply le_lt_trans; [apply Hle; lia | exact Hmx].
Qed.

Lemma argmax_first (a : list float) (i : nat) (m : float) :
  argmax a = Ok i -> max a = Ok m -> existsb is_nan a = false ->
  forall j, j < i -> lt (item a j) m = true.
Proof.
  destruct a as [|x a]; cbn [argmax max]; [discriminate|].
  intros Hi Hm Hnum. cbn in Hnum. apply orb_false_elim in Hnum as [Hx Hnum].
  rewrite Hx in Hi. injection Hi as Hi. injection Hm as Hm. subst i m.
  intros j Hj. unfold item.
  apply (argmax_scan_first a [x] x 0); cbn; auto.
  - intros k Hk. lia.
  - intros k Hk. assert (k = 0) as -> by lia. now apply le_refl.
Qed.

(** A run succeeds on every output of 1 to 43 scores: the labels are looked
    up only at indices of the output. *)
Lemma detect_sign_ok_upto
  (env : Env) (self : TrafficSignDetector.t) (image_path : string) (w : World)
  (T : Tensor) (scores : list float) (rest : list (list float)) :
  preprocess_image env image_path (224, 224) = Ok T ->
  invoke (interpreter self) T = Ok (scores :: rest) ->
  scores <> [] ->
  List.length scores <= 43 ->
  exists i m,
    argmax scores = Ok i /\ max scores = Ok m /\
    detect_sign env self image_path w =
    (Ok (success_record env self image_path w scores i m), tick (tick (tick w))).
Proof.
  intros Hpre Hinv Hne Hlen.
  destruct (argmax_ok scores Hne) as [i [m [Hi Hm]]].
  exists i, m. split; [exact Hi|]. split; [exact Hm|].
  destruct (argmax_max scores i m Hi Hm) as [Hlt _].
  unfold detect_sign, try_except, detect_sign_try, bind, lift, time_time,
    datetime_now_isoformat, ret.
  rewrite Hpre, Hinv. cbn [row0]. rewrite Hi, Hm.
  fold (top_indices env scores).
  rewrite top_predictions_loop_ok.
  2:{ apply Forall_forall. intros idx Hidx.
      apply top_indices_in in Hidx. lia. }
  cbn [app readings tick].
  rewrite (LABELS_item_ok i) by lia.
  unfold success_record, listed.
  destruct (gt m (confidence_threshold self)); reflexivity.
Qed.



(** ** The first entry of top_predictions *)

(** Line 134 puts first the index that sorts last: no score sorts after its
    score. *)
Lemma top_indices_head (env : Env) (scores : list float) :
  scores <> [] ->
  exists g others,
    top_indices env scores = g :: others /\
    g < List.length scores /\
    forall j, j < List.length scores -> before scores j g.
Proof.
  intros Hs.
  pose proof (argsort_sorts (np env) scores) as Hp.
  assert (Hne : argsort (np env) scores <> []).
  { intros E. apply sorts_length in Hp. rewrite E in Hp.
    destruct scores; [congruence | discriminate]. }
  destruct (exists_last Hne) as [p' [g Eg]].
  exists g, (rev (skipn (List.length p' + 1 - 3) p')).
  split; [|split].
  - unfold top_indices, reversed, last3. rewrite Eg, length_app. cbn.
    rewrite skipn_app.
    replace (List.length p' + 1 - 3 - List.length p') with 0 by lia.
    cbn. rewrite rev_app_distr. reflexivity.
  - apply (sorts_in scores _ g Hp). rewrite Eg. apply in_or_app. cbn. auto.
  - intros j Hj. apply (sorts_in scores _ j Hp) in Hj.
    apply sorts_strongly in Hp. rewrite Eg in Hp, Hj.
    apply in_app_or in Hj as [Hj|[Hj|[]]].
    + exact (StronglySorted_last _ p' g j Hp Hj).
    + subst j. unfold before.
      destruct (sort_lt (item scores g) (item scores g)) eqn:E; [|reflexivity].
      now rewrite (sort_lt_total _ _ E) in E.
Qed.



(** ** Outputs of other lengths than 43 *)

(** A model of ten classes, class 4 at 0.9, and one of fifty classes, class
    45 at 0.9. *)
Definition ten_scores : list float :=
  map (fun i => Examples.assoc i [(4, Examples.score 9 10)]) (seq 0 10).

Definition fifty_scores : list float :=
  map (fun i => Examples.assoc i [(45, Examples.score 9 10)]) (seq 0 50).

Definition model_of (n : Z) (scores : list float) : Interpreter :=
  MkInterpreter [1; 224; 224; 3]%Z [1; n]%Z (fun _ => Ok [scores]).



(** The loop of lines 137-143 raises nothing but the [IndexError] of
    [LABELS[idx]]. *)
Lemma top_predictions_loop_raises (self : TrafficSignDetector.t)
  (scores : list float) (idxs : list nat) (acc : list value) :
  (exists tp, top_predictions_loop self scores idxs acc = Ok tp) \/
  top_predictions_loop self scores idxs acc = Raise IndexError.
Proof.
  revert acc. induction idxs as [|idx idxs IH]; intros acc; cbn; [eauto|].
  destruct (gt (item scores idx) (confidence_threshold self)); [|apply IH].
  unfold LABELS_item. destruct (nth_error LABELS idx); [apply IH | auto].
Qed.

(** X4: when the greatest score of the output is above the threshold at an
    index of 43 or more, for which [LABELS] has no entry, the [IndexError] is
    caught and the run returns an error record. *)
Theorem detect_sign_class_out_of_range
  (env : Env) (self : TrafficSignDetector.t) (image_path : string) (w : World)
  (T : Tensor) (scores : list float) (rest : list (list float))
  (i : nat) (m : float) :
  preprocess_image env image_path (224, 224) = Ok T ->
  invoke (interpreter self) T = Ok (scores :: rest) ->
  argmax scores = Ok i ->
  max scores = Ok m ->
  43 <= i ->
  gt m (confidence_threshold self) = true ->
  exists r w',
    detect_sign env self image_path w = (Ok r, w') /\
    keys r = ["image_path"; "timestamp"; "error"; "detected"] /\
    lookup "error" r = Some (VStr "list index out of range") /\
    lookup "detected" r = Some (VBool false).
Proof.
  intros Hpre Hinv Hi Hm Hge Hd.
  assert (Htry : exists w1,
            detect_sign_try env self image_path w = (Raise IndexError, w1)).
  { unfold detect_sign_try, bind, lift, time_time, datetime_now_isoformat, ret.
    rewrite Hpre, Hinv. cbn [row0]. rewrite Hi, Hm.
    destruct (top_predictions_loop_raises self scores
                (reversed (last3 (argsort (np env) scores))) [])
      as [[tp ->]| ->]; [|eauto].
    rewrite Hd. unfold LABELS_item.
    assert (Hnone : nth_error LABELS i = None)
      by (apply nth_error_None; rewrite LABELS_length; exact Hge).
    rewrite Hnone. eauto. }
  destruct Htry as [w1 Htry].
  exists (error_record env image_path w1 IndexError), (tick w1).
  split; [now apply detect_sign_caught|]. repeat split; reflexivity.
Qed.

Lemma detect_sign_class_out_of_range_witness :
  exists T,
    preprocess_image (Examples.env (model_of 50 fifty_scores)) "sign.png"
                     (224, 224) = Ok T /\
    invoke (model_of 50 fifty_scores) T = Ok [fifty_scores] /\
    argmax fifty_scores = Ok 45 /\
    max fifty_scores = Ok (Examples.score 9 10) /\
    43 <= 45 /\
    gt (Examples.score 9 10) (dec64 3 10) = true /\
    exists r w',
      detect_sign (Examples.env (model_of 50 fifty_scores))
                  (Examples.detector (model_of 50 fifty_scores))
                  "sign.png" Examples.w0 = (Ok r, w') /\
      keys r = ["image_path"; "timestamp"; "error"; "detected"] /\
      lookup "error" r = Some (VStr "list index out of range") /\
      lookup "detected" r = Some (VBool false).
Proof.
  eexists. split; [reflexivity|]. split; [reflexivity|].
  split; [vm_compute; reflexivity|]. split; [vm_compute; reflexivity|].
  split; [lia|]. split; [vm_compute; reflexivity|].
  eapply (detect_sign_class_out_of_range
            (Examples.env (model_of 50 fifty_scores))
            (Examples.detector (model_of 50 fifty_scores))
            "sign.png" Examples.w0 _ fifty_scores [] 45
            (Examples.score 9 10));
    first [reflexivity | lia | vm_compute; reflexivity].
Defined.

(** X5: an output tensor without a row, or whose first row holds no score,
    gives an error record: [output_data[0]] raises an [IndexError] and
    [np.argmax] of an empty row a [ValueError], both caught. *)
Theorem detect_sign_empty_output
  (env : Env) (self : TrafficSignDetector.t) (image_path : string) (w : World)
  (T : Tensor) :
  preprocess_image env image_path (224, 224) = Ok T ->
  invoke (interpreter self) T = Ok [] \/
  (exists rest, invoke (interpreter self) T = Ok ([] :: rest)) ->
  exists r w' e,
    detect_sign env self image_path w = (Ok r, w') /\
    keys r = ["image_path"; "timestamp"; "error"; "detected"] /\
    lookup "error" r = Some (VStr (str e)) /\
    lookup "detected" r = Some (VBool false) /\
    (invoke (interpreter self) T = Ok [] -> exn_class e = "IndexError") /\
    ((exists rest, invoke (interpreter self) T = Ok ([] :: rest)) ->
     exn_class e = "ValueError").
Proof.
  intros Hpre [Hinv|[rest Hinv]].
  - exists (error_record env image_path (tick (tick w)) IndexError_axis0),
           (tick (tick (tick w))), IndexError_axis0.
    split.
    + apply detect_sign_caught.
      unfold detect_sign_try, bind, lift, time_time. rewrite Hpre, Hinv.
      reflexivity.
    + repeat split; try reflexivity.
      intros [rest H]. rewrite Hinv in H. discriminate.
  - exists (error_record env image_path (tick (tick w)) ValueError_argmax),
           (tick (tick (tick w))), ValueError_argmax.
    split.
    + apply detect_sign_caught.
      unfold detect_sign_try, bind, lift, time_time. rewrite Hpre, Hinv.
      reflexivity.
    + repeat split; try reflexivity.
      intros H. rewrite Hinv in H. discriminate.
Qed.

Lemma detect_sign_empty_output_witness :
  exists T,
    preprocess_image (Examples.env (model_of 0 [])) "sign.png" (224, 224)
    = Ok T /\
    (invoke (model_of 0 []) T = Ok [] \/
     (exists rest, invoke (model_of 0 []) T = Ok ([] :: rest))) /\
    exists r w' e,
      detect_sign (Examples.env (model_of 0 []))
                  (Examples.detector (model_of 0 []))
                  "sign.png" Examples.w0 = (Ok r, w') /\
      keys r = ["image_path"; "timestamp"; "error"; "detected"] /\
      lookup "error" r = Some (VStr (str e)) /\
      lookup "detected" r = Some (VBool false) /\
      (invoke (model_of 0 []) T = Ok [] -> exn_class e = "IndexError") /\
      ((exists rest, invoke (model_of 0 []) T = Ok ([] :: rest)) ->
       exn_class e = "ValueError").
Proof.
  eexists. split; [reflexivity|].
  split; [right; exists []; reflexivity|].
  eapply (detect_sign_empty_output
            (Examples.env (model_of 0 []))
            (Examples.detector (model_of 0 []))
            "sign.png" Examples.w0 _);
    [reflexivity | right; exists []; reflexivity].
Defined.

(** ** The two kinds of record *)

Definition success_keys : list string :=
  ["image_path"; "timestamp"; "inference_time_ms"; "detected";
   "primary_detection"; "top_predictions"; "model_info"].

Definition error_keys : list string :=
  ["image_path"; "timestamp"; "error"; "detected"].

(** X6: every record [detect_sign] returns has one of two sets of keys.
    Either it is the record of a completed run, with its seven keys, no
    [error], a float [inference_time_ms] and a [model_info] naming the model
    path, the threshold used, the declared input shape and 43 classes; or it
    is an error record with its four keys.  So a record carries [error]
    exactly when it carries no [inference_time_ms]. *)
Theorem detect_sign_record_keys
  (env : Env) (self : TrafficSignDetector.t) (image_path : string) (w : World) :
  exists r w',
    detect_sign env self image_path w = (Ok r, w') /\
    ((keys r = success_keys /\
      lookup "image_path" r = Some (VStr image_path) /\
      (exists it, lookup "inference_time_ms" r = Some (VFloat it)) /\
      (exists tp, lookup "top_predictions" r = Some (VList tp)) /\
      lookup "model_info" r =
      Some (VDict
              [("model_path", VStr (model_path self));
               ("confidence_threshold", VFloat (confidence_threshold self));
               ("input_shape",
                 VList (map VInt (input_shape (interpreter self))));
               ("total_classes", VInt 43)])) \/
     (keys r = error_keys /\
      lookup "image_path" r = Some (VStr image_path) /\
      exists e, lookup "error" r = Some (VStr (str e)))) /\
    contains "error" r = negb (contains "inference_time_ms" r).
Proof.
  destruct (detect_sign_try env self image_path w) as [[r|e] w1] eqn:Htry.
  - exists r, w1. split; [now apply detect_sign_returned|].
    revert Htry.
    unfold detect_sign_try, bind, lift, time_time, datetime_now_isoformat, ret.
    destruct (preprocess_image env image_path (224, 224)) as [T|e];
      [|discriminate].
    destruct (invoke (interpreter self) T) as [out|e]; [|discriminate].
    destruct (row0 out) as [scores|e]; [|discriminate].
    destruct (argmax scores) as [i|e]; [|discriminate].
    destruct (max scores) as [m|e]; [|discriminate].
    destruct (top_predictions_loop self scores _ []) as [tp|e]; [|discriminate].
    destruct (if gt m (confidence_threshold self)
              then match LABELS_item i with
                   | Ok label => Ok (detection i label m)
                   | Raise e => Raise e
                   end
              else Ok VNone) as [pd|e]; [|discriminate].
    intros [= <- <-]. split; [|reflexivity].
    left. repeat split; try reflexivity; eexists; reflexivity.
  - exists (error_record env image_path w1 e), (tick w1).
    split; [now apply detect_sign_caught|]. split; [|reflexivity].
    right. repeat split; try reflexivity. exists e. reflexivity.
Qed.

(** ** The primary detection among the listed classes *)

(** The classes that reach the maximum [m] are on top of the scores. *)
Lemma reaching_on_top (scores : list float) (m : float) :
  existsb is_nan scores = false ->
  is_nan m = false ->
  on_top scores (fun j => le m (item scores j)) = true.
Proof.
  intros Hnum Hm. unfold on_top.
  apply forallb_forall. intros x Hx. apply in_seq in Hx.
  apply forallb_forall. intros j Hj. apply in_seq in Hj.
  destruct (le m (item scores x)) eqn:Xx; [|reflexivity].
  destruct (le m (item scores j)) eqn:Xj; [reflexivity|]. cbn.
  assert (Hnj : is_nan (item scores j) = false)
    by (apply numbers_item; [exact Hnum | lia]).
  assert (Hlt : lt (item scores j) (item scores x) = true).
  { eapply lt_le_trans; [|exact Xx]. now apply le_false_lt. }
  unfold sort_lt. fold (lt (item scores j) (item scores x)).
  now rewrite Hlt.
Qed.



(** With four classes tied at the maximum the bound of three is passed: under
    a stable sort the primary detection, class 0, is not among the three
    entries listed, classes 3, 2 and 1. *)
Definition four_tied_scores : list float :=
  Examples.scores_with
    [(0, Examples.score 1 2); (1, Examples.score 1 2);
     (2, Examples.score 1 2); (3, Examples.score 1 2)].

Example four_tied_primary_unlisted :
  exists r w',
    detect_sign (Examples.env (Examples.model four_tied_scores))
                (Examples.detector (Examples.model four_tied_scores))
                "sign.png" Examples.w0 = (Ok r, w') /\
    lookup "primary_detection" r =
    Some (detection 0 "Speed limit (20km/h)" (Examples.score 1 2)) /\
    lookup "top_predictions" r =
    Some (VList [detection 3 "Speed limit (60km/h)" (Examples.score 1 2);
                 detection 2 "Speed limit (50km/h)" (Examples.score 1 2);
                 detection 1 "Speed limit (30km/h)" (Examples.score 1 2)]).
Proof.
  destruct (example_run reference four_tied_scores "sign.png")
    as [i [m [Hi [Hm Hrun]]]]; [reflexivity | reflexivity |].
  vm_compute in Hi. vm_compute in Hm.
  injection Hi as Ei. injection Hm as Em. subst i m.
  eexists. eexists. split; [exact Hrun|].
  split; vm_compute; reflexivity.
Qed.

(** ** preprocess_image at other target sizes *)



(** ** detect_batch over a list in two parts *)

(** A run of [detect_sign] reads the clock and writes no file. *)
Lemma detect_sign_files (env : Env) (self : TrafficSignDetector.t)
  (image_path : string) (w w' : World) (r : res dict) :
  detect_sign env self image_path w = (r, w') -> files w' = files w.
Proof.
  unfold detect_sign, try_except, detect_sign_except, detect_sign_try, bind,
    lift, time_time, datetime_now_isoformat, ret.
  destruct (preprocess_image env image_path (224, 224)) as [T|e];
    [|intros [= <- <-]; reflexivity].
  destruct (invoke (interpreter self) T) as [out|e];
    [|intros [= <- <-]; reflexivity].
  destruct (row0 out) as [scores|e]; [|intros [= <- <-]; reflexivity].
  destruct (argmax scores) as [i|e]; [|intros [= <- <-]; reflexivity].
  destruct (max scores) as [m|e]; [|intros [= <- <-]; reflexivity].
  destruct (top_predictions_loop self scores _ []) as [tp|e];
    [|intros [= <- <-]; reflexivity].
  destruct (if gt m (confidence_threshold self)
            then match LABELS_item i with
                 | Ok label => Ok (detection i label m)
                 | Raise e => Raise e
                 end
            else Ok VNone) as [pd|e]; intros [= <- <-]; reflexivity.
Qed.

(** The loop started with results already collected appends to them what
    it returns when started with none. *)
Lemma detect_batch_loop_acc (env : Env) (self : TrafficSignDetector.t)
  (image_paths : list string) :
  forall (results : list dict) (w : World),
  exists rs w',
    detect_batch_loop env self image_paths [] w = (Ok rs, w') /\
    detect_batch_loop env self image_paths results w = (Ok (results ++ rs), w') /\
    files w' = files w.
Proof.
  induction image_paths as [|image_path rest IH]; intros results w; cbn.
  - exists [], w. rewrite app_nil_r. repeat split; reflexivity.
  - destruct (detect_sign_returns env self image_path w) as [r [w1 [Hr _]]].
    pose proof (detect_sign_files env self image_path w w1 (Ok r) Hr) as Hf.
    destruct (IH [r] w1) as [rs [w' [H0 [H1 Hf1]]]].
    destruct (IH (results ++ [r]) w1) as [rs' [w'' [H0' [H2 _]]]].
    rewrite H0 in H0'. injection H0' as E1 E2. subst rs' w''.
    exists (r :: rs), w'. unfold bind. rewrite Hr. cbn [app].
    split; [exact H1|]. split; [|congruence].
    rewrite H2, <- app_assoc. reflexivity.
Qed.

(** X9: [detect_batch] on a list in two parts returns the results of the
    first part followed by those of the second, run in the world the first
    part left; on the empty list it returns the empty list; and it writes no
    file. *)
Theorem detect_batch_app
  (env : Env) (self : TrafficSignDetector.t) (a b : list string) (w : World) :
  exists ra w1 rb w2,
    detect_batch env self a w = (Ok ra, w1) /\
    detect_batch env self b w1 = (Ok rb, w2) /\
    detect_batch env self (a ++ b) w = (Ok (ra ++ rb), w2) /\
    detect_batch env self [] w = (Ok [], w) /\
    files w2 = files w.
Proof.
  unfold detect_batch. revert w.
  induction a as [|p a IH]; intros w.
  - destruct (detect_batch_loop_acc env self b [] w) as [rb [w2 [Hb [_ Hf]]]].
    exists [], w, rb, w2. cbn [app]. repeat split; auto.
  - destruct (detect_sign_returns env self p w) as [r [w0 [Hr _]]].
    pose proof (detect_sign_files env self p w w0 (Ok r) Hr) as Hf0.
    destruct (IH w0) as [ra [w1 [rb [w2 [Ha [Hb [Hab [_ Hf]]]]]]]].
    destruct (detect_batch_loop_acc env self a [r] w0)
      as [ra' [w1' [Ha0 [Ha1 _]]]].
    rewrite Ha in Ha0. injection Ha0 as E1 E2. subst ra' w1'.
    destruct (detect_batch_loop_acc env self (a ++ b) [r] w0)
      as [rab [w2' [Hab0 [Hab1 _]]]].
    rewrite Hab in Hab0. injection Hab0 as E1 E2. subst rab w2'.
    exists (r :: ra), w1, rb, w2.
    cbn [app detect_batch_loop]. unfold bind. rewrite Hr. cbn [app].
    split; [exact Ha1|]. split; [exact Hb|]. split; [exact Hab1|].
    split; [reflexivity | congruence].
Qed.

(** ** The report of a batch *)

(** The [detection_summary] of lines 218-225 for result records, with the
    timestamp [ts]. *)
Definition summary_of (env : Env) (results : list dict) (ts : string) : dict :=
  [("total_images", VInt (Z.of_nat (List.length results)));
   ("successful_detections",
     VInt (Z.of_nat (List.length (filter is_detected results))));
   ("failed_detections",
     VInt (Z.of_nat (List.length results) -
           Z.of_nat (List.length (filter is_detected results))));
   ("success_rate",
     match results with
     | [] => VInt 0
     | _ :: _ =>
         VFloat (Float.round2
                   (mul64
                      (div64
                         (f64_of_Z
                            (Z.of_nat (List.length (filter is_detected results))))
                         (f64_of_Z (Z.of_nat (List.length results))))
                      (f64_of_Z 100)))
     end);
   ("average_inference_time_ms",
     match timings results with
     | [] => VInt 0
     | _ :: _ =>
         VFloat (NumPy.round2 (np env) (NumPy.mean (np env) (timings results)))
     end);
   ("detection_timestamp", VStr ts)].

Definition report_of (env : Env) (results : list dict) (ts : string) : value :=
  VDict [("detection_summary", VDict (summary_of env results ts));
         ("detections", VList (map VDict results))].

(** On result records and an output path that opens, the report is
    written. *)
Lemma save_results_writes
  (env : Env) (results : list dict) (output_path : string) (w : World) :
  forallb result_record results = true ->
  open_w env output_path = Ok tt ->
  save_results_to_json env results output_path w =
  (Ok tt,
   MkWorld (S (readings w))
           ((output_path,
             report_of env results (datetime_clock env (readings w)))
              :: files w)).
Proof.
  intros Hrec Hopen.
  unfold save_results_to_json, bind, lift, datetime_now_isoformat, json_dump_to.
  rewrite (filter_detected results Hrec), (inference_times_timings results Hrec).
  rewrite asarray_floats, Hopen.
  unfold report_of, summary_of.
  destruct results as [|r results]; [reflexivity|].
  destruct (timings (r :: results)); reflexivity.
Qed.

(** The results of a batch are result records. *)
Lemma detect_batch_result_records
  (env : Env) (self : TrafficSignDetector.t) (image_paths : list string)
  (w w1 : World) (results : list dict) :
  detect_batch env self image_paths w = (Ok results, w1) ->
  forallb result_record results = true /\
  Forall2 (result_of env self) image_paths results /\
  files w1 = files w.
Proof.
  intros H.
  destruct (detect_batch_loop_spec env self image_paths [] w)
    as [rs [w' [Hloop Hall]]].
  destruct (detect_batch_loop_acc env self image_paths [] w)
    as [rs' [w'' [Hloop' [_ Hf]]]].
  unfold detect_batch in H. rewrite H in Hloop, Hloop'. cbn [app] in Hloop.
  injection Hloop as E1 E2. injection Hloop' as E3 E4. subst rs w' rs' w''.
  split; [|split; [exact Hall | exact Hf]].
  apply forallb_forall. intros r Hr.
  clear H Hf. induction Hall as [|p r' ps rs Hpr _ IH]; [destruct Hr|].
  destruct Hr as [->|Hr]; [|now apply IH].
  exact (detect_sign_result_record env self p r Hpr).
Qed.




(** X12: in the summary, [failed_detections] is the number of records whose
    [detected] is not true, the error records and the records of runs below
    the threshold alike; [successful_detections] is at most
    [total_images]. *)
Theorem failed_detections_count
  (env : Env) (results : list dict) (output_path : string) (w : World) :
  forallb result_record results = true ->
  open_w env output_path = Ok tt ->
  exists summary detections w',
    save_results_to_json env results output_path w = (Ok tt, w') /\
    files w' =
    (output_path,
     VDict [("detection_summary", VDict summary);
            ("detections", detections)]) :: files w /\
    lookup "failed_detections" summary =
    Some (VInt (Z.of_nat
                  (List.length
                     (filter (fun r => negb (is_detected r)) results)))) /\
    exists successful total,
      lookup "successful_detections" summary = Some (VInt successful) /\
      lookup "total_images" summary = Some (VInt total) /\
      (0 <= successful <= total)%Z.
Proof.
  intros Hrec Hopen.
  rewrite (save_results_writes env results output_path w Hrec Hopen).
  eexists. eexists. eexists. split; [reflexivity|]. split; [reflexivity|].
  pose proof (filter_length is_detected results) as Hsum.
  split.
  - cbn. do 2 f_equal. lia.
  - eexists. eexists. split; [reflexivity|]. split; [reflexivity|].
    pose proof (filter_length_le is_detected results). lia.
Qed.

Lemma failed_detections_count_witness :
  forallb result_record three_records = true /\
  open_w (Examples.env (Examples.model stop_scores)) "out.json" = Ok tt /\
  exists summary detections w',
    save_results_to_json (Examples.env (Examples.model stop_scores))
                         three_records "out.json" Examples.w0 = (Ok tt, w') /\
    files w' =
    (("out.json",
      VDict [("detection_summary", VDict summary);
             ("detections", detections)]) :: files Examples.w0) /\
    lookup "failed_detections" summary =
    Some (VInt (Z.of_nat
                  (List.length
                     (filter (fun r => negb (is_detected r)) three_records)))) /\
    exists successful total,
      lookup "successful_detections" summary = Some (VInt successful) /\
      lookup "total_images" summary = Some (VInt total) /\
      (0 <= successful <= total)%Z.
Proof.
  split; [reflexivity|]. split; [reflexivity|].
  apply (failed_detections_count (Examples.env (Examples.model stop_scores))
           three_records "out.json" Examples.w0); reflexivity.
Defined.

(** * The scripts around the detector *)

(** ** Strings, paths and the file system *)

Module Os.

Import Py Sys.
Local Open Scope string_scope.
Local Open Scope list_scope.
Local Open Scope nat_scope.

(** [s.lower()] on the letters A to Z (file names are taken as ASCII). *)
Definition lower_ascii (c : ascii) : ascii :=
  let n := nat_of_ascii c in
  if (65 <=? n) && (n <=? 90) then ascii_of_nat (n + 32) else c.

Definition lower (s : string) : string :=
  string_of_list_ascii (map lower_ascii (list_ascii_of_string s)).

(** [s.endswith(suffix)] and [s.endswith((suffix, ...))]. *)
Definition endswith (s suffix : string) : bool :=
  (String.length suffix <=? String.length s) &&
  String.eqb (substring (String.length s - String.length suffix)
                        (String.length suffix) s)
             suffix.

Definition endswith_any (s : string) (suffixes : list string) : bool :=
  existsb (endswith s) suffixes.

Definition is_sep (c : ascii) : bool := Ascii.eqb c "/"%char.

Fixpoint dropwhile {A : Type} (f : A -> bool) (l : list A) : list A :=
  match l with
  | [] => []
  | x :: l' => if f x then dropwhile f l' else l
  end.

(** [posixpath.dirname(p)]: the part of [p] up to its last slash, without
    its trailing slashes unless it consists of slashes only. *)
Definition dirname (p : string) : string :=
  let head :=
    rev (dropwhile (fun c => negb (is_sep c)) (rev (list_ascii_of_string p))) in
  if forallb is_sep head
  then string_of_list_ascii head
  else string_of_list_ascii (rev (dropwhile is_sep (rev head))).

(** [posixpath.join(a, b)]. *)
Definition join (a b : string) : string :=
  if prefix "/" b then b
  else if String.eqb a "" || endswith a "/" then a ++ b
  else a ++ "/" ++ b.

(** The file system as the scripts find it: [os.path.exists], [os.listdir]
    and [os.makedirs(name, exist_ok=True)] on a name that is not empty. *)
Record t : Type := Build {
  path_exists : string -> bool;
  listdir : string -> res (list string);
  makedirs : string -> res unit
}.

Definition FileNotFoundError (name : string) : exn :=
  Exception "FileNotFoundError"
            ("[Errno 2] No such file or directory: '" ++ name ++ "'").

(** [os.makedirs(name, exist_ok=True)]: the empty name is no directory and
    cannot be made. *)
Definition os_makedirs (os : t) (name : string) : M unit :=
  lift (if String.eqb name "" then Raise (FileNotFoundError "")
        else makedirs os name).

(** [os.path.exists(path)]: a file written during the run exists. *)
Definition exists_in (os : t) (w : World) (path : string) : bool :=
  existsb (fun f => String.eqb (fst f) path) (files w) || path_exists os path.

Definition os_path_exists (os : t) (path : string) : M bool :=
  fun w => (Ok (exists_in os w path), w).

(** A path without a slash. *)
Definition bare (p : string) : bool :=
  forallb (fun c => negb (is_sep c)) (list_ascii_of_string p).

Definition os_listdir (os : t) (path : string) : M (list string) :=
  lift (listdir os path).

(** A value in a condition: [None] and the empty string are false. *)
Definition given (s : option string) : bool :=
  match s with
  | Some s => negb (String.eqb s "")
  | None => false
  end.

End Os.

(** ** The scripts

    Console output is left out: the scripts are given by what they return or
    raise and by the files they write. *)

Module Scripts.

Import Float Py Sys Os TrafficSignDetector.
Local Open Scope py_scope.
Local Open Scope string_scope.
Local Open Scope list_scope.

Definition default_model_path : string := "models/gtsrb_model.lite".

(** The default [confidence_threshold=0.3]. *)
Definition default_confidence : float := dec64 3 10.

Definition the (s : option string) : string :=
  match s with Some s => s | None => "" end.

(** The extensions of [batch_detect.py] and of [main] in
    [traffic_sign_detector.py], and those of [demo.py] and
    [test_core.py]. *)
Definition image_extensions : list string :=
  [".png"; ".jpg"; ".jpeg"; ".bmp"; ".tiff"].

Definition demo_extensions : list string := [".png"; ".jpg"; ".jpeg"].

(** [file.lower().endswith(extensions)]. *)
Definition has_extension (extensions : list string) (file : string) : bool :=
  endswith_any (lower file) extensions.

Section Scripts.

Variable os : Os.t.
Variable env : Env.

(** [TrafficSignDetector(model_path=..., confidence_threshold=...)] when a
    model path is given, [TrafficSignDetector(confidence_threshold=...)]
    otherwise. *)
Definition detector_of (model_path : option string) (confidence : float)
  : res TrafficSignDetector.t :=
  if given model_path
  then __init__ env (the model_path) confidence
  else __init__ env default_model_path confidence.

Definition new_detector (model_path : option string) (confidence : float)
  : M TrafficSignDetector.t :=
  lift (detector_of model_path confidence).

(** [detect_single_image] of [single_detect.py] (lines 14-71). *)
Definition detect_single_image (image_path : string)
  (output_file model_path : option string) (confidence : float) : M bool :=
  there <- os_path_exists os image_path ;;
  if negb there then ret false
  else
    detector <- new_detector model_path confidence ;;
    result <- detect_sign env detector image_path ;;
    if given output_file
    then
      u <- os_makedirs os (dirname (the output_file)) ;;
      v <- json_dump_to env (the output_file) (VDict result) ;;
      ret true
    else ret true.

(** The image files of a directory listing, joined to the directory, in the
    order of the listing. *)
Definition image_paths_of (extensions : list string) (dir : string)
  (names : list string) : list string :=
  map (join dir) (filter (has_extension extensions) names).

(** [process_images] of [batch_detect.py] (lines 14-56). *)
Definition process_images (input_dir output_file : string)
  (model_path : option string) (confidence : float) : M bool :=
  detector <- new_detector model_path confidence ;;
  there <- os_path_exists os input_dir ;;
  if negb there then ret false
  else
    names <- os_listdir os input_dir ;;
    let image_paths := image_paths_of image_extensions input_dir names in
    match image_paths with
    | [] => ret false
    | _ :: _ =>
        results <- detect_batch env detector image_paths ;;
        u <- os_makedirs os (dirname output_file) ;;
        v <- save_results_to_json env results output_file ;;
        ret true
    end.

(** [main] of [traffic_sign_detector.py] (lines 241-277). *)
Definition main : M unit :=
  detector <- lift (__init__ env default_model_path default_confidence) ;;
  let test_images_dir := "test_images" in
  let output_file := "output/detection_results.json" in
  there <- os_path_exists os test_images_dir ;;
  if negb there then ret tt
  else
    names <- os_listdir os test_images_dir ;;
    let image_paths := image_paths_of image_extensions test_images_dir names in
    match image_paths with
    | [] => ret tt
    | _ :: _ =>
        results <- detect_batch env detector image_paths ;;
        u <- os_makedirs os "output" ;;
        save_results_to_json env results output_file
    end.

Definition UnboundLocalError (name : string) : exn :=
  Exception "UnboundLocalError"
            ("cannot access local variable '" ++ name
             ++ "' where it is not associated with a value").

(** A local variable that may not have been assigned. *)
Definition local {A : Type} (name : string) (x : option A) : M A :=
  lift (match x with Some a => Ok a | None => Raise (UnboundLocalError name) end).

(** [run_demo] of [demo.py] (lines 12-119).  Each of the three parts is a
    [try] whose [except Exception] returns [False]; [detector] is assigned in
    the first part, under [if os.path.exists(test_image)], and [results] in
    the second. *)
Definition demo_part1 : M (option (option TrafficSignDetector.t)) :=
  let test_image := "test_images/00000.png" in
  there <- os_path_exists os test_image ;;
  if there
  then
    try_except
      (detector <- lift (__init__ env default_model_path default_confidence) ;;
       result <- detect_sign env detector test_image ;;
       ret (Some (Some detector)))
      (fun e => ret None)
  else ret (Some None).

Definition demo_part2 (detector : option TrafficSignDetector.t)
  : M (option (TrafficSignDetector.t * list dict)) :=
  try_except
    (names <- os_listdir os "test_images" ;;
     let image_paths := image_paths_of demo_extensions "test_images" names in
     d <- local "detector" detector ;;
     results <- detect_batch env d image_paths ;;
     ret (Some (d, results)))
    (fun e => ret None).

Definition demo_part3 (detector : TrafficSignDetector.t) (results : list dict)
  : M bool :=
  let output_file := "output/demo_results.json" in
  try_except
    (u <- os_makedirs os "output" ;;
     v <- save_results_to_json env results output_file ;;
     there <- os_path_exists os output_file ;;
     if there then ret true else ret false)
    (fun e => ret false).

Definition run_demo : M bool :=
  there <- os_path_exists os default_model_path ;;
  if negb there then ret false
  else
    part1 <- demo_part1 ;;
    match part1 with
    | None => ret false
    | Some detector =>
        part2 <- demo_part2 detector ;;
        match part2 with
        | None => ret false
        | Some (d, results) => demo_part3 d results
        end
    end.

(** [test_core_module] of [test_core.py] (lines 9-85). *)
Definition test_core_module : M bool :=
  let model_path := default_model_path in
  let test_images_dir := "test_images" in
  model_there <- os_path_exists os model_path ;;
  if negb model_there then ret false
  else
    dir_there <- os_path_exists os test_images_dir ;;
    if negb dir_there then ret false
    else
      names <- os_listdir os test_images_dir ;;
      match filter (has_extension demo_extensions) names with
      | [] => ret false
      | first :: _ =>
          let test_image := join test_images_dir first in
          try_except
            (detector <- lift (__init__ env model_path default_confidence) ;;
             result <- detect_sign env detector test_image ;;
             u <- os_makedirs os "output" ;;
             let output_file := "output/test_results.json" in
             v <- save_results_to_json env [result] output_file ;;
             there <- os_path_exists os output_file ;;
             if there then ret true else ret false)
            (fun e => ret false)
      end.

End Scripts.

End Scripts.

(** ** Facts about paths *)

Import Os Scripts.

Lemma dropwhile_all {A : Type} (f : A -> bool) (l : list A) :
  forallb f l = true -> dropwhile f l = [].
Proof.
  induction l as [|x l IH]; cbn; [reflexivity|].
  intros H. apply andb_prop in H as [Hx Hl]. rewrite Hx. now apply IH.
Qed.

Lemma forallb_rev {A : Type} (f : A -> bool) (l : list A) :
  forallb f (rev l) = forallb f l.
Proof.
  destruct (forallb f l) eqn:E.
  - rewrite forallb_forall in *. intros x Hx. apply E. now apply in_rev.
  - destruct (forallb f (rev l)) eqn:E'; [|reflexivity].
    rewrite <- E. symmetry. rewrite forallb_forall in *.
    intros x Hx. apply E'. now apply in_rev in Hx.
Qed.

(** The directory of a path without a slash is the empty string. *)
Lemma dirname_bare (p : string) : bare p = true -> dirname p = "".
Proof.
  unfold bare, dirname. intros H.
  rewrite dropwhile_all by (now rewrite forallb_rev).
  reflexivity.
Qed.

Lemma dropwhile_head {A : Type} (f : A -> bool) (l : list A) :
  dropwhile f l = [] \/
  exists x l', dropwhile f l = x :: l' /\ f x = false.
Proof.
  induction l as [|x l IH]; cbn; [auto|].
  destruct (f x) eqn:E; [exact IH|]. right. eauto.
Qed.

Lemma string_of_list_ascii_nil (l : list ascii) :
  string_of_list_ascii l = "" -> l = [].
Proof. destruct l; [reflexivity | discriminate]. Qed.

(** And only of such a path. *)
Lemma dirname_empty (p : string) : dirname p = "" -> bare p = true.
Proof.
  unfold bare, dirname.
  rewrite <- (forallb_rev _ (list_ascii_of_string p)).
  set (l := rev (list_ascii_of_string p)).
  destruct (dropwhile_head (fun c => negb (is_sep c)) l) as [E|[x [l' [E Hx]]]].
  - intros _. clear -E. induction l as [|c l IH]; cbn in *; [reflexivity|].
    destruct (negb (is_sep c)); [now apply IH | discriminate].
  - rewrite E. apply negb_false_iff in Hx.
    destruct (forallb is_sep (rev (x :: l'))) eqn:Hall.
    + intros H. apply string_of_list_ascii_nil in H.
      cbn in H. destruct (rev l'); discriminate.
    + rewrite rev_involutive. cbn [dropwhile]. rewrite Hx.
      intros H. apply string_of_list_ascii_nil in H.
      assert (Hd : dropwhile is_sep l' = []).
      { destruct (dropwhile is_sep l'); [reflexivity|].
        cbn in H. destruct (rev l0); discriminate. }
      exfalso. rewrite forallb_rev in Hall. cbn in Hall. rewrite Hx in Hall.
      cbn in Hall. clear -Hd Hall.
      induction l' as [|c l' IH]; cbn in *; [discriminate|].
      destruct (is_sep c); [now apply IH | discriminate].
Qed.

(** ** What the scripts read of a record

    The scripts print a record under [if result.get('detected', False)]:
    [result['primary_detection']] with its ['label'], ['confidence'] and
    ['class_id'], [result['inference_time_ms']], and the ['label'] and
    ['confidence'] of every entry of [result['top_predictions']]; the demo
    also reads [result['image_path']].  A missing key would raise
    [KeyError], and the primary detection [None] a [TypeError]. *)

Definition printable_detection (v : value) : bool :=
  match v with
  | VDict p =>
      match lookup "label" p, lookup "confidence" p, lookup "class_id" p with
      | Some (VStr _), Some (VFloat _), Some (VInt _) => true
      | _, _, _ => false
      end
  | _ => false
  end.

Definition printable (r : dict) : bool :=
  match lookup "image_path" r with Some (VStr _) => true | _ => false end &&
  (if truthy (get r "detected" (VBool false))
   then
     match lookup "primary_detection" r with
     | Some v => printable_detection v
     | None => false
     end &&
     match lookup "inference_time_ms" r with
     | Some (VFloat _) => true
     | _ => false
     end &&
     match lookup "top_predictions" r with
     | Some (VList l) => forallb printable_detection l
     | _ => false
     end
   else true).

Lemma top_predictions_loop_printable
  (self : TrafficSignDetector.t) (scores : list float) :
  forall (indices : list nat) (acc tp : list value),
    top_predictions_loop self scores indices acc = Ok tp ->
    forallb printable_detection acc = true ->
    forallb printable_detection tp = true.
Proof.
  induction indices as [|i rest IH]; intros acc tp; cbn.
  - intros [= <-]. auto.
  - destruct (gt (NumPy.item scores i) (confidence_threshold self)).
    + destruct (LABELS_item i) as [l|e]; [|discriminate].
      intros H Hacc. apply (IH _ _ H).
      rewrite forallb_app, Hacc. reflexivity.
    + apply IH.
Qed.

(** X13: whatever [detect_sign] returns, the scripts can print it: a record
    whose [detected] is true has a primary detection with a label, a
    confidence and a class id, a float [inference_time_ms], and top
    predictions that each have a label and a confidence; every record names
    its image.  So the prints of [single_detect.py], [demo.py] and
    [test_core.py] raise no [KeyError] or [TypeError]. *)
Theorem detect_sign_record_printable
  (env : Env) (self : TrafficSignDetector.t) (image_path : string) (w : World) :
  exists r w',
    detect_sign env self image_path w = (Ok r, w') /\ printable r = true.
Proof.
  unfold detect_sign, try_except, detect_sign_except, detect_sign_try, bind,
    lift, time_time, datetime_now_isoformat, ret.
  destruct (preprocess_image env image_path (224, 224)) as [T|e];
    [|do 2 eexists; split; reflexivity].
  destruct (invoke (interpreter self) T) as [out|e];
    [|do 2 eexists; split; reflexivity].
  destruct (row0 out) as [scores|e]; [|do 2 eexists; split; reflexivity].
  destruct (NumPy.argmax scores) as [i|e]; [|do 2 eexists; split; reflexivity].
  destruct (NumPy.max scores) as [m|e]; [|do 2 eexists; split; reflexivity].
  destruct (top_predictions_loop self scores _ []) as [tp|e] eqn:Htp;
    [|do 2 eexists; split; reflexivity].
  destruct (gt m (confidence_threshold self)) eqn:Hd.
  - destruct (LABELS_item i) as [l|e]; [|do 2 eexists; split; reflexivity].
    do 2 eexists. split; [reflexivity|].
    unfold printable, get, detection.
    cbn -[gt Float.round2 mul64 sub64 forallb].
    apply (top_predictions_loop_printable _ _ _ _ _ Htp). reflexivity.
  - do 2 eexists. split; [reflexivity|].
    unfold printable, get.
    reflexivity.
Qed.

(** ** Facts about the scripts *)

Lemma save_results_fails
  (env : Env) (results : list dict) (output_path : string) (w : World)
  (e : exn) :
  forallb result_record results = true ->
  open_w env output_path = Raise e ->
  save_results_to_json env results output_path w = (Raise e, tick w).
Proof.
  intros Hrec Hopen.
  unfold save_results_to_json, bind, lift, datetime_now_isoformat, json_dump_to.
  rewrite (inference_times_timings results Hrec).
  rewrite NumPy.asarray_floats, Hopen.
  destruct (timings results); reflexivity.
Qed.

Lemma given_bare_dirname (output_file : option string) :
  bare (the output_file) = true ->
  String.eqb (dirname (the output_file)) "" = true.
Proof. intros H. now rewrite (dirname_bare _ H). Qed.

Lemma not_bare_dirname (p : string) :
  bare p = false -> String.eqb (dirname p) "" = false.
Proof.
  intros H. destruct (String.eqb (dirname p) "") eqn:E; [|reflexivity].
  apply String.eqb_eq in E. apply dirname_empty in E. congruence.
Qed.

(** A file system for the examples: every path exists but [nowhere]; the
    directory [test_images] lists four files; every directory can be
    made. *)
Definition example_os : Os.t :=
  Os.Build
    (fun path => negb (String.eqb path "nowhere"))
    (fun path =>
       if String.eqb path "test_images"
       then Ok ["00000.png"; "notes.txt"; "00001.JPG"; "sign.bmp"]
       else Raise (FileNotFoundError path))
    (fun name => Ok tt).

(** The same, where no image can be read. *)
Definition unreadable_env (m : Interpreter) : Env :=
  MkEnv (np (Examples.env m))
        (fun path => Raise (Exception "UnidentifiedImageError"
                              "cannot identify image file"))
        (Image_resample (Examples.env m))
        (tf_lite_Interpreter (Examples.env m))
        (time_clock (Examples.env m))
        (datetime_clock (Examples.env m))
        (open_w (Examples.env m)).

(** X14: without an output file, [detect_single_image] returns [False]
    exactly when the image path does not exist; when it exists, the call
    raises what loading the model raises and otherwise returns [True],
    whatever the detection gave (an error record included).  No file is
    written. *)
Theorem detect_single_image_without_output
  (os : Os.t) (env : Env) (image_path : string)
  (output_file model_path : option string) (confidence : float) (w : World) :
  given output_file = false ->
  exists w',
    detect_single_image os env image_path output_file model_path confidence w =
    (if exists_in os w image_path
     then match detector_of env model_path confidence with
          | Ok _ => Ok true
          | Raise e => Raise e
          end
     else Ok false, w') /\
    files w' = files w.
Proof.
  intros Hgiven.
  unfold detect_single_image, bind, ret, os_path_exists, new_detector, lift.
  destruct (exists_in os w image_path); cbn [negb];
    [|exists w; split; reflexivity].
  destruct (detector_of env model_path confidence) as [d|e];
    [|exists w; split; reflexivity].
  destruct (detect_sign_returns env d image_path w) as [r [w1 [Hr _]]].
  rewrite Hr, Hgiven. exists w1. split; [reflexivity|].
  exact (detect_sign_files env d image_path w w1 (Ok r) Hr).
Qed.

Lemma detect_single_image_without_output_witness :
  given None = false /\
  exists w',
    detect_single_image example_os
      (unreadable_env (Examples.model stop_scores)) "photo.png" None None
      default_confidence Examples.w0 =
    (if exists_in example_os Examples.w0 "photo.png"
     then match detector_of (unreadable_env (Examples.model stop_scores))
                  None default_confidence with
          | Ok _ => Ok true
          | Raise e => Raise e
          end
     else Ok false, w') /\
    files w' = files Examples.w0.
Proof.
  split; [reflexivity|].
  apply (detect_single_image_without_output example_os
           (unreadable_env (Examples.model stop_scores)) "photo.png" None None
           default_confidence Examples.w0).
  reflexivity.
Defined.

(** X15: with an output file name that has no directory part (as in
    [-o result.json]), [detect_single_image] raises [FileNotFoundError]
    from [os.makedirs('')], after the detection has run; the record is not
    written. *)
Theorem detect_single_image_bare_output
  (os : Os.t) (env : Env) (image_path : string)
  (output_file model_path : option string) (confidence : float) (w : World)
  (detector : TrafficSignDetector.t) :
  exists_in os w image_path = true ->
  detector_of env model_path confidence = Ok detector ->
  given output_file = true ->
  bare (the output_file) = true ->
  exists r w',
    detect_sign env detector image_path w = (Ok r, w') /\
    detect_single_image os env image_path output_file model_path confidence w =
    (Raise (FileNotFoundError ""), w') /\
    files w' = files w.
Proof.
  intros Hthere Hdet Hgiven Hbare.
  unfold detect_single_image, bind, ret, os_path_exists, new_detector, lift,
    os_makedirs.
  rewrite Hthere, Hdet. cbn [negb].
  destruct (detect_sign_returns env detector image_path w) as [r [w1 [Hr _]]].
  exists r, w1. rewrite Hr, Hgiven, (given_bare_dirname _ Hbare).
  split; [reflexivity|]. split; [reflexivity|].
  exact (detect_sign_files env detector image_path w w1 (Ok r) Hr).
Qed.

Lemma detect_single_image_bare_output_witness :
  exists_in example_os Examples.w0 "photo.png" = true /\
  detector_of (Examples.env (Examples.model stop_scores)) None
    default_confidence =
  Ok (Examples.detector (Examples.model stop_scores)) /\
  given (Some "result.json") = true /\
  bare (the (Some "result.json")) = true /\
  exists r w',
    detect_sign (Examples.env (Examples.model stop_scores))
      (Examples.detector (Examples.model stop_scores)) "photo.png"
      Examples.w0 = (Ok r, w') /\
    detect_single_image example_os (Examples.env (Examples.model stop_scores))
      "photo.png" (Some "result.json") None default_confidence Examples.w0 =
    (Raise (FileNotFoundError ""), w') /\
    files w' = files Examples.w0.
Proof.
  split; [reflexivity|]. split; [reflexivity|].
  split; [reflexivity|]. split; [reflexivity|].
  apply (detect_single_image_bare_output example_os
           (Examples.env (Examples.model stop_scores)) "photo.png"
           (Some "result.json") None default_confidence Examples.w0
           (Examples.detector (Examples.model stop_scores))); reflexivity.
Defined.



Lemma Forall2_map_left {A B C : Type} (R : B -> C -> Prop) (f : A -> B)
  (l : list A) :
  forall l', Forall2 R (map f l) l' -> Forall2 (fun x y => R (f x) y) l l'.
Proof.
  induction l as [|x l IH]; intros l' H; inversion H; subst; constructor;
    auto.
Qed.

(** The records of a batch over the image files of a directory: one for each
    image file name, in the order of the listing, each the record of
    [detect_sign] on the joined path. *)
Definition records_of (env : Env) (detector : TrafficSignDetector.t)
  (dir : string) (names : list string) (results : list dict) : Prop :=
  Forall2 (fun name r =>
             result_of env detector (join dir name) r /\
             lookup "image_path" r = Some (VStr (join dir name)))
          names results.

Lemma detect_batch_records_of
  (env : Env) (detector : TrafficSignDetector.t) (extensions : list string)
  (dir : string) (names : list string) (w : World) :
  exists results w1,
    detect_batch env detector (image_paths_of extensions dir names) w =
    (Ok results, w1) /\
    forallb result_record results = true /\
    records_of env detector dir (filter (has_extension extensions) names)
               results /\
    files w1 = files w.
Proof.
  destruct (detect_batch_loop_spec env detector
              (image_paths_of extensions dir names) [] w)
    as [results [w1 [Hbatch _]]].
  cbn [app] in Hbatch.
  fold (detect_batch env detector (image_paths_of extensions dir names))
    in Hbatch.
  destruct (detect_batch_result_records env detector _ w w1 results Hbatch)
    as [Hrec [Hall Hf]].
  exists results, w1. repeat split; try assumption.
  unfold records_of. apply Forall2_map_left in Hall.
  eapply Forall2_impl; [|exact Hall].
  intros name r H. split; [exact H|].
  exact (result_of_image_path env detector _ _ H).
Qed.



(** The image files of the example listing: the text file is left out, the
    upper-case extension is taken. *)
Example example_image_files :
  image_paths_of image_extensions "test_images"
    ["00000.png"; "notes.txt"; "00001.JPG"; "sign.bmp"] =
  ["test_images/00000.png"; "test_images/00001.JPG"; "test_images/sign.bmp"] /\
  image_paths_of demo_extensions "test_images/"
    ["00000.png"; "notes.txt"; "00001.JPG"; "sign.bmp"] =
  ["test_images/00000.png"; "test_images/00001.JPG"].
Proof. split; reflexivity. Qed.

(** X18: [process_images] returns [False] exactly when the model loads and
    the directory does not exist or lists no image file; nothing has then
    changed.  The model is loaded first: when loading raises, the call
    raises, whatever the directory. *)
Theorem process_images_returns_false
  (os : Os.t) (env : Env) (input_dir output_file : string)
  (model_path : option string) (confidence : float) (w : World) :
  exists outcome w',
    process_images os env input_dir output_file model_path confidence w =
    (outcome, w') /\
    (outcome = Ok false <->
     (exists d, detector_of env model_path confidence = Ok d) /\
     (exists_in os w input_dir = false \/
      exists names,
        listdir os input_dir = Ok names /\
        filter (has_extension image_extensions) names = [])) /\
    (outcome = Ok false -> w' = w) /\
    (forall e, detector_of env model_path confidence = Raise e ->
               outcome = Raise e).
Proof.
  unfold process_images, os_path_exists, new_detector, os_listdir,
    os_makedirs, bind, ret, lift.
  destruct (detector_of env model_path confidence) as [d|e].
  2:{ do 2 eexists. split; [reflexivity|].
      split; [split; [discriminate | intros [[d H] _]; discriminate]|].
      split; [discriminate | intros e' [= ->]; reflexivity]. }
  destruct (exists_in os w input_dir) eqn:Hthere; cbn [negb].
  2:{ do 2 eexists. split; [reflexivity|].
      split; [split; [eauto | reflexivity]|].
      split; [reflexivity | discriminate]. }
  destruct (listdir os input_dir) as [names|e] eqn:Hlist; cbv beta iota zeta.
  2:{ do 2 eexists. split; [reflexivity|].
      split; [split; [discriminate|]|split; discriminate].
      intros [_ [H|[names [H _]]]]; discriminate. }
  destruct (detect_batch_records_of env d image_extensions input_dir names w)
    as [results [w1 [Hbatch _]]].
  unfold image_paths_of in *.
  destruct (filter (has_extension image_extensions) names) as [|n ns] eqn:E.
  - do 2 eexists. split; [reflexivity|].
    split; [split; [eauto 6 | reflexivity]|].
    split; [reflexivity | discriminate].
  - cbn [map] in *. cbv beta iota zeta. rewrite Hbatch.
    assert (Hno : ~ ((exists d0 : TrafficSignDetector.t, Ok d = Ok d0) /\
                     (true = false \/
                      exists names0, Ok names = Ok names0 /\
                        filter (has_extension image_extensions) names0 = []))).
    { intros [_ [H|[names0 [[= <-] H]]]]; [discriminate | congruence]. }
    destruct (if String.eqb (dirname output_file) ""
              then Raise (FileNotFoundError "")
              else makedirs os (dirname output_file)) as [u|e].
    + destruct (save_results_to_json env results output_file w1)
        as [[[]|e] w2].
      * do 2 eexists. split; [reflexivity|].
        split; [split; [discriminate | intros H; now destruct Hno]|].
        split; discriminate.
      * do 2 eexists. split; [reflexivity|].
        split; [split; [discriminate | intros H; now destruct Hno]|].
        split; discriminate.
    + do 2 eexists. split; [reflexivity|].
      split; [split; [discriminate | intros H; now destruct Hno]|].
      split; discriminate.
Qed.

(** X19: with an output file name that has no directory part (as in
    [-o my_results.json]), [process_images] raises [FileNotFoundError] from
    [os.makedirs('')] after the whole batch has run, and the results are
    not written. *)
Theorem process_images_bare_output
  (os : Os.t) (env : Env) (input_dir output_file : string)
  (model_path : option string) (confidence : float) (w : World)
  (detector : TrafficSignDetector.t) (names : list string) :
  detector_of env model_path confidence = Ok detector ->
  exists_in os w input_dir = true ->
  listdir os input_dir = Ok names ->
  filter (has_extension image_extensions) names <> [] ->
  bare output_file = true ->
  exists results w',
    detect_batch env detector
      (image_paths_of image_extensions input_dir names) w = (Ok results, w') /\
    process_images os env input_dir output_file model_path confidence w =
    (Raise (FileNotFoundError ""), w') /\
    files w' = files w.
Proof.
  intros Hdet Hthere Hlist Hsome Hbare.
  unfold process_images, os_path_exists, new_detector, os_listdir,
    os_makedirs, bind, ret, lift.
  rewrite Hdet, Hthere, Hlist. cbn [negb]. cbv beta iota zeta.
  destruct (detect_batch_records_of env detector image_extensions input_dir
              names w) as [results [w1 [Hbatch [_ [_ Hf]]]]].
  exists results, w1. split; [exact Hbatch|].
  destruct (image_paths_of image_extensions input_dir names) as [|p ps] eqn:E.
  - unfold image_paths_of in E. apply map_eq_nil in E. contradiction.
  - cbv beta iota zeta. rewrite Hbatch, (dirname_bare _ Hbare).
    split; [reflexivity | exact Hf].
Qed.

Lemma process_images_bare_output_witness :
  detector_of (Examples.env (Examples.model stop_scores)) None
    default_confidence =
  Ok (Examples.detector (Examples.model stop_scores)) /\
  exists_in example_os Examples.w0 "test_images" = true /\
  listdir example_os "test_images" =
  Ok ["00000.png"; "notes.txt"; "00001.JPG"; "sign.bmp"] /\
  filter (has_extension image_extensions)
         ["00000.png"; "notes.txt"; "00001.JPG"; "sign.bmp"] <> [] /\
  bare "my_results.json" = true /\
  exists results w',
    detect_batch (Examples.env (Examples.model stop_scores))
      (Examples.detector (Examples.model stop_scores))
      (image_paths_of image_extensions "test_images"
         ["00000.png"; "notes.txt"; "00001.JPG"; "sign.bmp"])
      Examples.w0 = (Ok results, w') /\
    process_images example_os (Examples.env (Examples.model stop_scores))
      "test_images" "my_results.json" None default_confidence Examples.w0 =
    (Raise (FileNotFoundError ""), w') /\
    files w' = files Examples.w0.
Proof.
  split; [reflexivity|]. split; [reflexivity|]. split; [reflexivity|].
  split; [discriminate|]. split; [reflexivity|].
  apply (process_images_bare_output example_os
           (Examples.env (Examples.model stop_scores)) "test_images"
           "my_results.json" None default_confidence Examples.w0
           (Examples.detector (Examples.model stop_scores))
           ["00000.png"; "notes.txt"; "00001.JPG"; "sign.bmp"]);
    first [reflexivity | discriminate].
Defined.

(** X20: [main] of [traffic_sign_detector.py] is [process_images] on the
    directory [test_images] with the output file
    [output/detection_results.json], the default model and the default
    threshold: both leave the same files and raise the same exceptions, and
    [main] returns [None] where [process_images] returns [True] or
    [False]. *)
Theorem main_as_process_images (os : Os.t) (env : Env) (w : World) :
  exists outcome w',
    process_images os env "test_images" "output/detection_results.json" None
      default_confidence w = (outcome, w') /\
    main os env w =
    (match outcome with Ok _ => Ok tt | Raise e => Raise e end, w').
Proof.
  unfold main, process_images, os_path_exists, new_detector, detector_of,
    os_listdir, os_makedirs, bind, ret, lift.
  change (dirname "output/detection_results.json") with "output".
  cbn [given]. cbv beta iota zeta.
  destruct (__init__ env default_model_path default_confidence) as [d|e];
    [|do 2 eexists; split; reflexivity].
  destruct (exists_in os w "test_images"); cbn [negb];
    [|do 2 eexists; split; reflexivity].
  destruct (listdir os "test_images") as [names|e];
    [|do 2 eexists; split; reflexivity].
  destruct (image_paths_of image_extensions "test_images" names) as [|p ps];
    [do 2 eexists; split; reflexivity|].
  destruct (detect_batch env d (p :: ps) w) as [[results|e] w1];
    [|do 2 eexists; split; reflexivity].
  destruct (if String.eqb "output" "" then Raise (FileNotFoundError "")
            else makedirs os "output") as [u|e];
    [|do 2 eexists; split; reflexivity].
  destruct (save_results_to_json env results "output/detection_results.json" w1)
    as [[[]|e] w2]; do 2 eexists; split; reflexivity.
Qed.

(** X21: [run_demo] needs the sample image: whenever
    [test_images/00000.png] does not exist, the demo returns [False] and
    writes nothing, whatever else [test_images] holds, since the batch part
    uses the detector that only the single-image part creates. *)
Theorem run_demo_needs_sample_image (os : Os.t) (env : Env) (w : World) :
  exists_in os w "test_images/00000.png" = false ->
  run_demo os env w = (Ok false, w).
Proof.
  intros Hsample.
  unfold run_demo, demo_part1, demo_part2, os_path_exists, os_listdir, local,
    try_except, bind, ret, lift.
  destruct (exists_in os w default_model_path); cbn [negb]; [|reflexivity].
  rewrite Hsample.
  destruct (listdir os "test_images"); reflexivity.
Qed.

(** A file system with images but without [test_images/00000.png]. *)
Definition no_sample_os : Os.t :=
  Os.Build
    (fun path => negb (String.eqb path "test_images/00000.png"))
    (fun path => Ok ["00001.png"; "00002.png"])
    (fun name => Ok tt).

Lemma run_demo_needs_sample_image_witness :
  exists_in no_sample_os Examples.w0 "test_images/00000.png" = false /\
  run_demo no_sample_os (Examples.env (Examples.model stop_scores))
    Examples.w0 = (Ok false, Examples.w0).
Proof.
  split; [reflexivity|].
  apply (run_demo_needs_sample_image no_sample_os
           (Examples.env (Examples.model stop_scores)) Examples.w0).
  reflexivity.
Defined.

Lemma exists_in_written (os : Os.t) (n : nat) (path : string) (data : value)
  (fs : list (string * value)) :
  exists_in os (MkWorld n ((path, data) :: fs)) path = true.
Proof. unfold exists_in. cbn. now rewrite String.eqb_refl. Qed.

Local Open Scope py_scope.

(** What the third part of the demo and the last part of the test do with
    the records of [detect_sign]: they return [True] when [output] can be
    made and the file opened, and then the report is written; otherwise
    they return [False] and nothing is written. *)
Lemma save_and_check
  (os : Os.t) (env : Env) (results : list dict) (output_file : string)
  (w : World) :
  forallb result_record results = true ->
  exists b w',
    try_except
      (u <- os_makedirs os "output" ;;
       v <- save_results_to_json env results output_file ;;
       there <- os_path_exists os output_file ;;
       if there then ret true else ret false)
      (fun e => ret false) w = (Ok b, w') /\
    (b = true <->
     makedirs os "output" = Ok tt /\ open_w env output_file = Ok tt) /\
    (b = true ->
     exists ts,
       files w' = (output_file, report_of env results ts) :: files w) /\
    (b = false -> files w' = files w).
Proof.
  intros Hrec.
  unfold try_except, os_makedirs, os_path_exists, bind, ret, lift.
  cbn [String.eqb].
  destruct (makedirs os "output") as [[]|e].
  - destruct (open_w env output_file) as [[]|e] eqn:Hopen.
    + rewrite (save_results_writes env results output_file w Hrec Hopen).
      rewrite exists_in_written. do 2 eexists. split; [reflexivity|].
      split; [tauto|]. split; [intros _; eexists; reflexivity | discriminate].
    + rewrite (save_results_fails env results output_file w e Hrec Hopen).
      do 2 eexists. split; [reflexivity|].
      split; [split; [discriminate | intros [_ H]; discriminate]|].
      split; [discriminate | reflexivity].
  - do 2 eexists. split; [reflexivity|].
    split; [split; [discriminate | intros [H _]; discriminate]|].
    split; [discriminate | reflexivity].
Qed.


Lemma try_bind_ok {A B : Type} (c : M A) (k : A -> M B) (h : exn -> M B)
  (w w1 : World) (a : A) :
  c w = (Ok a, w1) ->
  try_except (x <- c ;; k x) h w = try_except (k a) h w1.
Proof. intros H. unfold try_except, bind. now rewrite H. Qed.

Lemma try_bind_raise {A B : Type} (c : M A) (k : A -> M B) (h : exn -> M B)
  (w w1 : World) (e : exn) :
  c w = (Raise e, w1) ->
  try_except (x <- c ;; k x) h w = h e w1.
Proof. intros H. unfold try_except, bind. now rewrite H. Qed.


(** X24: the test passes on an image that cannot be read.  When the first
    image file of [test_images] cannot be opened as an image, and the model
    loads and the report can be written, [test_core_module] still returns
    [True]; the one record of the report is the error record of that image,
    and the report counts no successful detection. *)
Theorem test_core_module_passes_unreadable
  (os : Os.t) (env : Env) (w : World) (d : TrafficSignDetector.t)
  (names : list string) (first : string) (rest : list string) (e : exn) :
  exists_in os w "models/gtsrb_model.lite" = true ->
  exists_in os w "test_images" = true ->
  listdir os "test_images" = Ok names ->
  filter (has_extension demo_extensions) names = first :: rest ->
  __init__ env default_model_path default_confidence = Ok d ->
  Image_open_convert_RGB env (join "test_images" first) = Raise e ->
  makedirs os "output" = Ok tt ->
  open_w env "output/test_results.json" = Ok tt ->
  exists r ts w',
    test_core_module os env w = (Ok true, w') /\
    files w' = ("output/test_results.json", report_of env [r] ts) :: files w /\
    lookup "error" r = Some (VStr (str e)) /\
    lookup "successful_detections" (summary_of env [r] ts) = Some (VInt 0).
Proof.
  intros Hmodel Hdir Hlist Hfilter Hinit Hopen Hmk Hout.
  unfold test_core_module, os_path_exists, os_listdir.
  change "models/gtsrb_model.lite" with default_model_path in Hmodel.
  unfold bind at 1. cbv beta iota zeta. rewrite Hmodel. cbn [negb].
  unfold bind at 1. cbv beta iota zeta. rewrite Hdir. cbn [negb].
  unfold bind at 1. unfold lift at 1. rewrite Hlist, Hfilter.
  cbv beta iota zeta. rewrite Hinit.
  rewrite (try_bind_ok (lift (Ok d)) _ _ w w d eq_refl).
  destruct (detect_sign_returns env d (join "test_images" first) w)
    as [r [w1 [Hr _]]].
  pose proof (detect_sign_files env d _ w w1 (Ok r) Hr) as Hf1.
  rewrite (try_bind_ok _ _ _ w w1 r Hr).
  assert (Hres : result_of env d (join "test_images" first) r)
    by (exists w, w1; exact Hr).
  assert (Hfail : fails env d (join "test_images" first) e).
  { left. unfold preprocess_image. now rewrite Hopen. }
  destruct (result_of_failure env d _ r e Hres Hfail) as [Herr Hdetected].
  assert (Hrec : forallb result_record [r] = true).
  { cbn. now rewrite (detect_sign_result_record env d _ r Hres). }
  destruct (save_and_check os env [r] "output/test_results.json" w1 Hrec)
    as [b [w3 [Hrun [Hb [Ht Hfalse]]]]].
  assert (b = true) as -> by (apply Hb; auto).
  destruct (Ht eq_refl) as [ts Hw].
  exists r, ts, w3. split; [exact Hrun|].
  split; [rewrite Hw; congruence|]. split; [exact Herr|].
  unfold summary_of. cbn [lookup String.eqb Ascii.eqb Bool.eqb filter].
  unfold is_detected. rewrite Hdetected. reflexivity.
Qed.

Lemma test_core_module_passes_unreadable_witness :
  exists_in example_os Examples.w0 "models/gtsrb_model.lite" = true /\
  exists_in example_os Examples.w0 "test_images" = true /\
  listdir example_os "test_images" =
  Ok ["00000.png"; "notes.txt"; "00001.JPG"; "sign.bmp"] /\
  filter (has_extension demo_extensions)
         ["00000.png"; "notes.txt"; "00001.JPG"; "sign.bmp"] =
  "00000.png" :: ["00001.JPG"] /\
  __init__ (unreadable_env (Examples.model stop_scores)) default_model_path
    default_confidence = Ok (Examples.detector (Examples.model stop_scores)) /\
  Image_open_convert_RGB (unreadable_env (Examples.model stop_scores))
    (join "test_images" "00000.png") =
  Raise (Exception "UnidentifiedImageError" "cannot identify image file") /\
  makedirs example_os "output" = Ok tt /\
  open_w (unreadable_env (Examples.model stop_scores))
    "output/test_results.json" = Ok tt /\
  exists r ts w',
    test_core_module example_os (unreadable_env (Examples.model stop_scores))
      Examples.w0 = (Ok true, w') /\
    files w' =
    ("output/test_results.json",
     report_of (unreadable_env (Examples.model stop_scores)) [r] ts)
      :: files Examples.w0 /\
    lookup "error" r =
    Some (VStr (str (Exception "UnidentifiedImageError"
                       "cannot identify image file"))) /\
    lookup "successful_detections"
      (summary_of (unreadable_env (Examples.model stop_scores)) [r] ts) =
    Some (VInt 0).
Proof.
  do 8 (split; [reflexivity|]).
  apply (test_core_module_passes_unreadable example_os
           (unreadable_env (Examples.model stop_scores)) Examples.w0
           (Examples.detector (Examples.model stop_scores))
           ["00000.png"; "notes.txt"; "00001.JPG"; "sign.bmp"]
           "00000.png" ["00001.JPG"]
           (Exception "UnidentifiedImageError" "cannot identify image file"));
    reflexivity.
Defined.
